(** * Map flattener (src/utils/flatten_map.py): model and verification

    The script loads a world document, computes the horizontal bounding
    box of its block mapping, builds a flat surface, keeps the blocks
    that pass the retention filter, puts a marker at the centre, and
    writes the document back.  This file embeds the functions of the
    script and the Python built-ins they call, and proves properties of
    the embedding.

    Conventions of the model:
    - a Python [int] is a [Z] (unbounded; the conversions [Py.int] and
      [Py.str] do not raise at the interpreter's limit of 4300 digits,
      and the round trip of coordinates is stated within that limit);
    - a Python [str] is a [string] of ASCII characters; characters
      outside ASCII are treated as neither digits, whitespace nor
      letters;
    - a Python [dict] is an insertion-ordered association list without
      repeated keys, written through [Py.setitem];
    - a raised exception is a value [Raise e] of the type [result]. *)

From Stdlib Require Import ZArith List String Ascii Bool Lia Decimal Sorted.
From Stdlib Require Import DecimalString DecimalFacts DecimalPos DecimalN DecimalZ.
Import ListNotations.

#[local] Open Scope Z_scope.
#[local] Open Scope string_scope.

(** ** Exceptions and the error monad *)

(** The exceptions the script can raise on a loaded document. *)
Inductive exn : Type :=
| ValueError_int_literal (s : string)   (* int(): invalid literal *)
| ValueError_unpack_few                 (* not enough values to unpack *)
| ValueError_unpack_many                (* too many values to unpack *)
| ValueError_empty_sequence (fn : string) (* min()/max() of no items *)
| AttributeError (attr : string).

Inductive result (A : Type) : Type :=
| Ok (a : A)
| Raise (e : exn).

Arguments Ok {A} a.
Arguments Raise {A} e.

Definition bind {A B : Type} (m : result A) (k : A -> result B) : result B :=
  match m with
  | Ok a => k a
  | Raise e => Raise e
  end.

Notation "x <- m ;; k" := (bind m (fun x => k))
  (at level 61, m at next level, right associativity).
Notation "' pat <- m ;; k" := (bind m (fun x => match x with pat => k end))
  (at level 61, pat pattern, m at next level, right associativity).

(** A [for] loop whose body may raise: the state is threaded through the
    items in order and the first exception ends the loop. *)
Fixpoint for_each {A S : Type} (items : list A) (body : S -> A -> result S)
    (s : S) : result S :=
  match items with
  | [] => Ok s
  | a :: rest => s' <- body s a ;; for_each rest body s'
  end.

(** ** Python built-ins used by the script *)

Module Py.

(** *** [str] helpers *)

Definition is_space (c : ascii) : bool :=
  match c with
  | " " | "009" | "010" | "011" | "012" | "013" => true
  | _ => false
  end%char.

Fixpoint lstrip (s : string) : string :=
  match s with
  | String c r => if is_space c then lstrip r else s
  | EmptyString => EmptyString
  end.

Fixpoint rstrip (s : string) : string :=
  match s with
  | String c r =>
      match rstrip r with
      | EmptyString => if is_space c then EmptyString else String c EmptyString
      | r' => String c r'
      end
  | EmptyString => EmptyString
  end.

Definition strip (s : string) : string := rstrip (lstrip s).

(** [s.split(',')]: the fields between commas; never the empty list. *)
Fixpoint split_comma (s : string) : list string :=
  match s with
  | EmptyString => [EmptyString]
  | String c r =>
      if Ascii.eqb c "," then EmptyString :: split_comma r
      else match split_comma r with
           | f :: fs => String c f :: fs
           | [] => [String c EmptyString]
           end
  end.

Definition upper_char (c : ascii) : ascii :=
  let n := nat_of_ascii c in
  if (Nat.leb 97 n && Nat.leb n 122)%bool then ascii_of_nat (n - 32) else c.

(** [s.upper()] on ASCII text. *)
Fixpoint upper (s : string) : string :=
  match s with
  | EmptyString => EmptyString
  | String c r => String (upper_char c) (upper r)
  end.

(** [s.replace('-', '_')]. *)
Fixpoint replace_hyphen (s : string) : string :=
  match s with
  | EmptyString => EmptyString
  | String c r =>
      String (if Ascii.eqb c "-" then "_"%char else c) (replace_hyphen r)
  end.

(** *** [int(s)] and [str(n)] *)

Definition digit_of_char (c : ascii) : option (uint -> uint) :=
  match c with
  | "0" => Some D0 | "1" => Some D1 | "2" => Some D2 | "3" => Some D3
  | "4" => Some D4 | "5" => Some D5 | "6" => Some D6 | "7" => Some D7
  | "8" => Some D8 | "9" => Some D9
  | _ => None
  end%char.

(** The digits of an integer literal: decimal digits, with single
    underscores allowed between two digits.  [prev] tells whether the
    previous character was a digit. *)
Fixpoint digits_of (s : string) (prev : bool) : option uint :=
  match s with
  | EmptyString => if prev then Some Nil else None
  | String c r =>
      if Ascii.eqb c "_" then
        if prev then digits_of r false else None
      else
        match digit_of_char c with
        | Some D => option_map D (digits_of r true)
        | None => None
        end
  end.

(** [int(s)] in base ten: surrounding whitespace is skipped, one sign is
    accepted, leading zeros are accepted.  The interpreter refuses, with a
    [ValueError], text of more than 4300 digits (its default limit on
    conversions between [int] and [str]); this function converts text of
    any length, so it stands for [int] on text within that limit. *)
Definition int (s : string) : result Z :=
  let body := strip s in
  let '(negative, ds) :=
    match body with
    | String "-" r => (true, r)
    | String "+" r => (false, r)
    | _ => (false, body)
    end in
  match digits_of ds false with
  | Some d => Ok (if negative then - Z.of_uint d else Z.of_uint d)
  | None => Raise (ValueError_int_literal s)
  end.

(** [str(n)], also what an f-string field [{n}] produces.  The
    interpreter refuses, with a [ValueError], a number of more than 4300
    digits; this function stands for [str] on numbers within that
    limit. *)
Definition str (n : Z) : string := NilZero.string_of_int (Z.to_int n).

(** *** [range], [min], [max] *)

(** [range(lo, hi)]. *)
Definition range (lo hi : Z) : list Z :=
  map (fun i => lo + Z.of_nat i) (seq 0 (Z.to_nat (hi - lo))).

Definition min (xs : list Z) : result Z :=
  match xs with
  | [] => Raise (ValueError_empty_sequence "min")
  | x :: rest => Ok (fold_left Z.min rest x)
  end.

Definition max (xs : list Z) : result Z :=
  match xs with
  | [] => Raise (ValueError_empty_sequence "max")
  | x :: rest => Ok (fold_left Z.max rest x)
  end.

(** *** [dict] *)

Section Dict.
Context {K V : Type} (K_eq_dec : forall a b : K, {a = b} + {a <> b}).

Definition dict : Type := list (K * V).

Fixpoint getitem (k : K) (d : dict) : option V :=
  match d with
  | [] => None
  | (k', v) :: rest => if K_eq_dec k k' then Some v else getitem k rest
  end.

(** [d[k] = v]: an existing key keeps its position, a new one goes
    last. *)
Fixpoint setitem (k : K) (v : V) (d : dict) : dict :=
  match d with
  | [] => [(k, v)]
  | (k', v') :: rest =>
      if K_eq_dec k k' then (k', v) :: rest
      else (k', v') :: setitem k v rest
  end.

(** [d.update(other)]. *)
Definition update (d other : dict) : dict :=
  fold_left (fun acc kv => setitem (fst kv) (snd kv) acc) other d.

Definition keys (d : dict) : list K := map fst d.

(** [k not in d]. *)
Definition not_in (d : dict) (k : K) : bool :=
  if in_dec K_eq_dec k (keys d) then false else true.
End Dict.

End Py.

Arguments Py.dict K V : clear implicits.

(** String-keyed dictionaries, as the block mapping and an object's
    attribute table. *)
Abbreviation sget := (Py.getitem string_dec).
Abbreviation sset := (Py.setitem string_dec).
Abbreviation supdate := (Py.update string_dec).

(** ** The script *)

Definition TARGET_HEIGHT : Z := 0.
Definition CENTER_MARKER_HEIGHT : Z := 2.

Module BlockData.
Record t : Type := mk {
  id : Z;
  name : string;
  textureUri : string;
  isLiquid : bool
}.
End BlockData.

Module MapData.
Record t : Type := mk {
  blockTypes : list BlockData.t;
  blocks : Py.dict string Z
}.
End MapData.

Module BlockTypes.
(** An instance: the attributes set by [setattr] and the [_blocks]
    index. *)
Record t : Type := mk {
  attrs : Py.dict string Z;
  _blocks : Py.dict Z BlockData.t
}.

(** [block['name'].upper().replace('-', '_')]. *)
Definition attr_name (block : BlockData.t) : string :=
  Py.replace_hyphen (Py.upper (BlockData.name block)).

(** [__init__]. *)
Definition init (block_types : list BlockData.t) : t :=
  {| attrs :=
       fold_left
         (fun a block => sset (attr_name block) (BlockData.id block) a)
         block_types [];
     _blocks :=
       fold_left
         (fun b block => Py.setitem Z.eq_dec (BlockData.id block) block b)
         block_types [] |}.

(** Attribute access [self.NAME] for a name that is not a method of the
    class. *)
Definition getattr (self : t) (attr : string) : result Z :=
  match sget attr (attrs self) with
  | Some v => Ok v
  | None => Raise (AttributeError attr)
  end.

(** The liquid flag of a block id, read as [print_block_types] does:
    [self._blocks[block_id].get('isLiquid')]. *)
Definition is_liquid (self : t) (block_id : Z) : bool :=
  match Py.getitem Z.eq_dec block_id (_blocks self) with
  | Some block => BlockData.isLiquid block
  | None => false
  end.
End BlockTypes.

Module Coordinates.
Record t : Type := mk { x : Z; y : Z; z : Z }.

(** The unpacking [x, y, z = map(int, fields)]: the fields are
    converted one at a time as the unpacking asks for them, and a
    fourth one is asked for to check that there is none. *)
Definition unpack3 (fields : list string) : result t :=
  match fields with
  | f1 :: rest1 =>
      a <- Py.int f1 ;;
      match rest1 with
      | f2 :: rest2 =>
          b <- Py.int f2 ;;
          match rest2 with
          | f3 :: rest3 =>
              c <- Py.int f3 ;;
              match rest3 with
              | [] => Ok (mk a b c)
              | f4 :: _ => _ <- Py.int f4 ;; Raise ValueError_unpack_many
              end
          | [] => Raise ValueError_unpack_few
          end
      | [] => Raise ValueError_unpack_few
      end
  | [] => Raise ValueError_unpack_few
  end.

Definition from_string (coord_str : string) : result t :=
  unpack3 (Py.split_comma coord_str).

Definition to_string (self : t) : string :=
  Py.str (x self) ++ "," ++ Py.str (y self) ++ "," ++ Py.str (z self).
End Coordinates.

Module MapBounds.
Record t : Type := mk { min_x : Z; max_x : Z; min_z : Z; max_z : Z }.

(** Python's [//] is floor division, as [Z.div] is. *)
Definition center (self : t) : Z * Z :=
  ((min_x self + max_x self) / 2, (min_z self + max_z self) / 2).
End MapBounds.

(** The list comprehension over the keys: the first key that does not
    parse raises. *)
Fixpoint parse_keys (ks : list string) : result (list Coordinates.t) :=
  match ks with
  | [] => Ok []
  | k :: rest =>
      c <- Coordinates.from_string k ;;
      cs <- parse_keys rest ;;
      Ok (c :: cs)
  end.

Definition get_map_bounds (blocks : Py.dict string Z) : result MapBounds.t :=
  coords <- parse_keys (Py.keys blocks) ;;
  min_x <- Py.min (map Coordinates.x coords) ;;
  max_x <- Py.max (map Coordinates.x coords) ;;
  min_z <- Py.min (map Coordinates.z coords) ;;
  max_z <- Py.max (map Coordinates.z coords) ;;
  Ok (MapBounds.mk min_x max_x min_z max_z).

Definition create_flat_surface (bounds : MapBounds.t)
    (block_types : BlockTypes.t) : result (Py.dict string Z) :=
  for_each (Py.range (MapBounds.min_x bounds) (MapBounds.max_x bounds + 1))
    (fun surface_blocks x =>
       for_each
         (Py.range (MapBounds.min_z bounds) (MapBounds.max_z bounds + 1))
         (fun surface_blocks z =>
            let coord := Coordinates.mk x TARGET_HEIGHT z in
            grass <- BlockTypes.getattr block_types "GRASS" ;;
            Ok (sset (Coordinates.to_string coord) grass surface_blocks))
         surface_blocks)
    [].

Definition add_center_marker (blocks : Py.dict string Z) (center : Z * Z)
    (block_types : BlockTypes.t) : result (Py.dict string Z) :=
  let '(center_x, center_z) := center in
  for_each (Py.range 1 (CENTER_MARKER_HEIGHT + 1))
    (fun blocks height =>
       let coord :=
         Coordinates.mk center_x (TARGET_HEIGHT + height) center_z in
       stone <- BlockTypes.getattr block_types "STONE_BRICKS" ;;
       Ok (sset (Coordinates.to_string coord) stone blocks))
    blocks.

(** One iteration of the loop of [process_existing_blocks]. *)
Definition process_block (block_types : BlockTypes.t)
    (processed_blocks : Py.dict string Z) (item : string * Z)
    : result (Py.dict string Z) :=
  let '(coord_str, block_id) := item in
  coord <- Coordinates.from_string coord_str ;;
  water <- BlockTypes.getattr block_types "WATER_STILL" ;;
  if Z.eqb block_id water then
    if Z.leb (Coordinates.y coord) TARGET_HEIGHT
    then Ok (sset coord_str block_id processed_blocks)
    else Ok processed_blocks
  else
    if Z.ltb (Coordinates.y coord) TARGET_HEIGHT
    then Ok (sset coord_str block_id processed_blocks)
    else Ok processed_blocks.

Definition process_existing_blocks (blocks : Py.dict string Z)
    (block_types : BlockTypes.t) : result (Py.dict string Z) :=
  for_each blocks (process_block block_types) [].

(** [main] on a loaded document; the result is the document handed to
    [save_map].  Printing is left out. *)
Definition main (map_data : MapData.t) : result MapData.t :=
  let block_types := BlockTypes.init (MapData.blockTypes map_data) in
  bounds <- get_map_bounds (MapData.blocks map_data) ;;
  let center := MapBounds.center bounds in
  new_blocks <- create_flat_surface bounds block_types ;;
  underground_blocks <-
    process_existing_blocks (MapData.blocks map_data) block_types ;;
  let new_blocks := supdate new_blocks underground_blocks in
  new_blocks <- add_center_marker new_blocks center block_types ;;
  Ok (MapData.mk (MapData.blockTypes map_data) new_blocks).

(** The exception of a failed subscript [d[key]] on the [_blocks]
    index. *)
Inductive key_error : Type :=
| KeyError (block_id : Z).

(** [BlockTypes.get_block_name]: [self._blocks[block_id]['name']]. *)
Definition get_block_name (self : BlockTypes.t) (block_id : Z)
    : string + key_error :=
  match Py.getitem Z.eq_dec block_id (BlockTypes._blocks self) with
  | Some block => inl (BlockData.name block)
  | None => inr (KeyError block_id)
  end.

(** [sorted(d.items())] for a dictionary with integer keys: the keys of
    a dictionary are distinct, so the pairs are ordered by key alone. *)
Fixpoint insert_item {V : Type} (item : Z * V) (l : list (Z * V))
    : list (Z * V) :=
  match l with
  | [] => [item]
  | h :: t =>
      if Z.leb (fst item) (fst h) then item :: l else h :: insert_item item t
  end.

Definition sorted_items {V : Type} (d : Py.dict Z V) : list (Z * V) :=
  fold_right insert_item [] d.

(** The order of the sorted pairs: by increasing key. *)
Definition by_id {V : Type} (a b : Z * V) : Prop := fst a < fst b.

(** The format field [{n:2d}]: decimal, right-aligned in two columns. *)
Definition format_2d (n : Z) : string :=
  let text := Py.str n in
  if Nat.ltb (String.length text) 2 then " " ++ text else text.

(** ["-" * 40]. *)
Definition rule_line : string := "----------------------------------------".

(** The lines the loop of [print_block_types] prints for one entry. *)
Definition entry_lines (item : Z * BlockData.t) : list string :=
  let '(block_id, block) := item in
  let id_line :=
    "ID: " ++ format_2d block_id ++ " | Name: " ++ BlockData.name block in
  let texture_line := "     Texture: " ++ BlockData.textureUri block in
  ([id_line; texture_line]
   ++ (if BlockData.isLiquid block then ["     Type: Liquid"] else [])
   ++ [rule_line])%list.

(** [BlockTypes.print_block_types]: the strings passed to [print], in
    order. *)
Definition print_block_types (self : BlockTypes.t) : list string :=
  ([String "010" "Available Block Types:"; rule_line]
   ++ flat_map entry_lines (sorted_items (BlockTypes._blocks self)))%list.

(** ** Definitions used in the statements *)

Fixpoint string_forall (P : ascii -> bool) (s : string) : bool :=
  match s with
  | EmptyString => true
  | String c r => P c && string_forall P r
  end.

Definition is_dec_digit (c : ascii) : bool :=
  match Py.digit_of_char c with Some _ => true | None => false end.

Definition not_space (c : ascii) : bool := negb (Py.is_space c).
Definition not_comma (c : ascii) : bool := negb (Ascii.eqb c ",").

(** *** Canonical decimal text *)

(** Digits without a leading zero: the text of a positive number. *)
Definition positive_digits (s : string) : bool :=
  match s with
  | EmptyString => false
  | String c r =>
      negb (Ascii.eqb c "0") && is_dec_digit c && string_forall is_dec_digit r
  end.

(** The text [str] gives to some integer: ["0"], or an optional minus
    sign before digits that do not start with a zero. *)
Definition canonical_int (s : string) : bool :=
  match s with
  | String "-" r => positive_digits r
  | _ => String.eqb s "0" || positive_digits s
  end.

(** Three canonical integers separated by commas. *)
Definition canonical_coord (s : string) : bool :=
  match Py.split_comma s with
  | [a; b; c] => canonical_int a && canonical_int b && canonical_int c
  | _ => false
  end.

Fixpoint join_comma (fields : list string) : string :=
  match fields with
  | [] => EmptyString
  | [f] => f
  | f :: rest => f ++ String "," (join_comma rest)
  end.

(** The interpreter's default limit on the number of digits in a
    conversion between [int] and [str]
    ([sys.int_info.default_max_str_digits]). *)
Definition MAX_STR_DIGITS : nat := 4300.

(** The number of digits of a decimal text: its length, the minus sign
    not counted. *)
Definition digit_count (text : string) : nat :=
  match text with
  | String "-" r => String.length r
  | _ => String.length text
  end.

(** The decimal text is short enough for the interpreter to convert. *)
Definition within_digit_limit (text : string) : bool :=
  Nat.leb (digit_count text) MAX_STR_DIGITS.

Definition is_min (xs : list Z) (m : Z) : Prop :=
  In m xs /\ forall a, In a xs -> m <= a.

Definition is_max (xs : list Z) (m : Z) : Prop :=
  In m xs /\ forall a, In a xs -> a <= m.

(** The coordinates a list of keys parses to, as a relation. *)
Definition parsed_in (ks : list string) (c : Coordinates.t) : Prop :=
  exists k, In k ks /\ Coordinates.from_string k = Ok c.

(** What [get_map_bounds] computes: every key parses, and each bound is
    attained by a key and bounds all of them. *)
Record bounds_of (blocks : Py.dict string Z) (b : MapBounds.t) : Prop := {
  bounds_parse :
    forall k, In k (Py.keys blocks) ->
              exists c, Coordinates.from_string k = Ok c;
  bounds_min_x_in :
    exists c, parsed_in (Py.keys blocks) c /\
              Coordinates.x c = MapBounds.min_x b;
  bounds_max_x_in :
    exists c, parsed_in (Py.keys blocks) c /\
              Coordinates.x c = MapBounds.max_x b;
  bounds_min_z_in :
    exists c, parsed_in (Py.keys blocks) c /\
              Coordinates.z c = MapBounds.min_z b;
  bounds_max_z_in :
    exists c, parsed_in (Py.keys blocks) c /\
              Coordinates.z c = MapBounds.max_z b;
  bounds_cover :
    forall c, parsed_in (Py.keys blocks) c ->
      MapBounds.min_x b <= Coordinates.x c <= MapBounds.max_x b /\
      MapBounds.min_z b <= Coordinates.z c <= MapBounds.max_z b
}.

(** ** The stages of the transform in closed form *)

Definition surface_key (x z : Z) : string :=
  Coordinates.to_string (Coordinates.mk x TARGET_HEIGHT z).

(** The cells of the bounding rectangle, in the order the two loops of
    [create_flat_surface] visit them. *)
Definition surface_cells (b : MapBounds.t) : list (Z * Z) :=
  list_prod (Py.range (MapBounds.min_x b) (MapBounds.max_x b + 1))
            (Py.range (MapBounds.min_z b) (MapBounds.max_z b + 1)).

Definition surface (b : MapBounds.t) (grass : Z) : Py.dict string Z :=
  map (fun p => (surface_key (fst p) (snd p), grass)) (surface_cells b).

(** The test of the retention filter on one item whose key parses. *)
Definition keeps (water : Z) (item : string * Z) : bool :=
  match Coordinates.from_string (fst item) with
  | Ok coord =>
      if Z.eqb (snd item) water
      then Z.leb (Coordinates.y coord) TARGET_HEIGHT
      else Z.ltb (Coordinates.y coord) TARGET_HEIGHT
  | Raise _ => false
  end.

Definition retained (water : Z) (blocks : Py.dict string Z)
    : Py.dict string Z :=
  supdate [] (filter (keeps water) blocks).

Definition marker_key (center : Z * Z) (height : Z) : string :=
  Coordinates.to_string
    (Coordinates.mk (fst center) (TARGET_HEIGHT + height) (snd center)).

Definition with_marker (blocks : Py.dict string Z) (center : Z * Z)
    (stone : Z) : Py.dict string Z :=
  sset (marker_key center 2) stone (sset (marker_key center 1) stone blocks).

(** The block mapping [main] saves, given the bounding box and the three
    resolved ids. *)
Definition flattened (b : MapBounds.t) (grass water stone : Z)
    (blocks : Py.dict string Z) : Py.dict string Z :=
  with_marker (supdate (surface b grass) (retained water blocks))
              (MapBounds.center b) stone.

(** The three names the transform resolves, in the order [main] first
    looks them up. *)
Definition required_names : list string :=
  ["GRASS"; "WATER_STILL"; "STONE_BRICKS"].

(** No entry of the table has normalized name [n]. *)
Definition name_missing (types : list BlockData.t) (n : string) : Prop :=
  forall block, In block types -> BlockTypes.attr_name block <> n.

(** ** Example documents *)

Definition ex_types : list BlockData.t :=
  [ BlockData.mk 1 "grass" "blocks/grass.png" false;
    BlockData.mk 2 "water-still" "blocks/water-still.png" true;
    BlockData.mk 3 "stone-bricks" "blocks/stone-bricks.png" false;
    BlockData.mk 4 "lava" "blocks/lava.png" true ].

(** A single still-water block lying at the target height. *)
Definition ex_pond : MapData.t := MapData.mk ex_types [("0,0,0", 2)].

(** A single lava block (flagged liquid) lying at the target height. *)
Definition ex_lava : MapData.t := MapData.mk ex_types [("0,0,0", 4)].

(** The end-to-end example: stone below, water above. *)
Definition ex_small : MapData.t :=
  MapData.mk ex_types [("0,-1,0", 3); ("0,5,0", 2)].

(** A document whose bounding box is 0..4 by 0..2. *)
Definition ex_wide : MapData.t :=
  MapData.mk ex_types [("0,-2,0", 3); ("4,7,2", 2); ("2,1,1", 1)].

(** A table without stone bricks. *)
Definition ex_types_no_stone : list BlockData.t :=
  [ BlockData.mk 1 "grass" "blocks/grass.png" false;
    BlockData.mk 2 "water-still" "blocks/water-still.png" true ].

(** ** Facts about the built-ins *)

Lemma string_forall_app P s t :
  string_forall P (s ++ t) = string_forall P s && string_forall P t.
Proof.
  induction s as [|c r IH]; simpl; [reflexivity|].
  now rewrite IH, andb_assoc.
Qed.

Lemma string_forall_impl (P Q : ascii -> bool) s :
  (forall c, P c = true -> Q c = true) ->
  string_forall P s = true -> string_forall Q s = true.
Proof.
  intros HPQ. induction s as [|c r IH]; simpl; [reflexivity|].
  rewrite !andb_true_iff. intros [Hc Hr]. split; auto.
Qed.

Lemma digit_not_space c : is_dec_digit c = true -> not_space c = true.
Proof.
  destruct c as [[|] [|] [|] [|] [|] [|] [|] [|]]; cbv; congruence.
Qed.

Lemma digit_not_comma c : is_dec_digit c = true -> not_comma c = true.
Proof.
  destruct c as [[|] [|] [|] [|] [|] [|] [|] [|]]; cbv; congruence.
Qed.

Lemma lstrip_id s : string_forall not_space s = true -> Py.lstrip s = s.
Proof.
  destruct s as [|c r]; simpl; [reflexivity|].
  unfold not_space. destruct (Py.is_space c); simpl; [discriminate|reflexivity].
Qed.

Lemma rstrip_id s : string_forall not_space s = true -> Py.rstrip s = s.
Proof.
  induction s as [|c r IH]; simpl; [reflexivity|].
  rewrite andb_true_iff. intros [Hc Hr]. rewrite (IH Hr).
  unfold not_space in Hc. destruct (Py.is_space c); [discriminate|].
  now destruct r.
Qed.

Lemma strip_id s : string_forall not_space s = true -> Py.strip s = s.
Proof.
  intros H. unfold Py.strip. now rewrite (lstrip_id s H), rstrip_id.
Qed.

(** The digits of a decimal number are read back as that number. *)
Lemma digits_of_uint d :
  Py.digits_of (NilEmpty.string_of_uint d) true = Some d.
Proof.
  induction d; simpl; try reflexivity; now rewrite IHd.
Qed.

Lemma digits_of_uint_start d :
  d <> Nil -> Py.digits_of (NilEmpty.string_of_uint d) false = Some d.
Proof.
  destruct d; intros Hd; try congruence; simpl;
    now rewrite digits_of_uint.
Qed.

Lemma uint_string_digits d :
  string_forall is_dec_digit (NilEmpty.string_of_uint d) = true.
Proof.
  induction d; simpl; auto.
Qed.

Lemma int_of_uint_string d :
  d <> Nil -> Py.int (NilEmpty.string_of_uint d) = Ok (Z.of_uint d).
Proof.
  intros Hd. unfold Py.int.
  rewrite strip_id
    by (apply string_forall_impl with (P := is_dec_digit);
        [apply digit_not_space | apply uint_string_digits]).
  assert (Hds : Py.digits_of (NilEmpty.string_of_uint d) false = Some d)
    by now apply digits_of_uint_start.
  destruct d; try congruence; simpl in *; now rewrite Hds.
Qed.

Lemma int_of_neg_uint_string d :
  d <> Nil ->
  Py.int (String "-" (NilEmpty.string_of_uint d)) = Ok (- Z.of_uint d).
Proof.
  intros Hd. unfold Py.int.
  rewrite strip_id.
  - now rewrite digits_of_uint_start.
  - simpl. apply string_forall_impl with (P := is_dec_digit);
      [apply digit_not_space | apply uint_string_digits].
Qed.

(** The shape of [str n]: digits, after a minus sign for a negative
    number. *)
Lemma str_shape n :
  (exists d, d <> Nil /\ Py.str n = NilEmpty.string_of_uint d
             /\ Z.of_uint d = n) \/
  (exists d, d <> Nil /\ Py.str n = String "-" (NilEmpty.string_of_uint d)
             /\ - Z.of_uint d = n).
Proof.
  destruct n as [|p|p]; unfold Py.str; simpl.
  - left. exists (D0 Nil). repeat split; congruence.
  - left. exists (Pos.to_uint p). split; [apply Unsigned.to_uint_nonnil|].
    split.
    + generalize (Unsigned.to_uint_nonnil p).
      now destruct (Pos.to_uint p).
    + unfold Z.of_uint. now rewrite DecimalPos.Unsigned.of_to.
  - right. exists (Pos.to_uint p). split; [apply Unsigned.to_uint_nonnil|].
    split.
    + generalize (Unsigned.to_uint_nonnil p).
      now destruct (Pos.to_uint p).
    + unfold Z.of_uint. now rewrite DecimalPos.Unsigned.of_to.
Qed.

(** [int] inverts [str]. *)
Lemma int_str n : Py.int (Py.str n) = Ok n.
Proof.
  destruct (str_shape n) as [(d & Hd & -> & <-)|(d & Hd & -> & <-)].
  - now apply int_of_uint_string.
  - now apply int_of_neg_uint_string.
Qed.

Lemma str_no_comma n : string_forall not_comma (Py.str n) = true.
Proof.
  destruct (str_shape n) as [(d & _ & -> & _)|(d & _ & -> & _)]; simpl;
    apply string_forall_impl with (P := is_dec_digit);
    try apply digit_not_comma; apply uint_string_digits.
Qed.

Lemma split_comma_nonempty s : Py.split_comma s <> [].
Proof.
  destruct s as [|c r]; simpl; [discriminate|].
  destruct (Ascii.eqb c ","); [discriminate|].
  destruct (Py.split_comma r); discriminate.
Qed.

Lemma split_comma_plain s :
  string_forall not_comma s = true -> Py.split_comma s = [s].
Proof.
  induction s as [|c r IH]; simpl; [reflexivity|].
  rewrite andb_true_iff. unfold not_comma at 1. intros [Hc Hr].
  destruct (Ascii.eqb c ","); [discriminate|]. now rewrite (IH Hr).
Qed.

Lemma split_comma_field s t :
  string_forall not_comma s = true ->
  Py.split_comma (s ++ String "," t) = s :: Py.split_comma t.
Proof.
  induction s as [|c r IH]; simpl; [reflexivity|].
  rewrite andb_true_iff. unfold not_comma at 1. intros [Hc Hr].
  destruct (Ascii.eqb c ","); [discriminate|]. now rewrite (IH Hr).
Qed.

(** Parsing inverts serialization. *)
Lemma from_string_to_string c :
  Coordinates.from_string (Coordinates.to_string c) = Ok c.
Proof.
  destruct c as [a b e].
  unfold Coordinates.from_string, Coordinates.to_string; simpl.
  rewrite split_comma_field by apply str_no_comma.
  rewrite split_comma_field by apply str_no_comma.
  rewrite split_comma_plain by apply str_no_comma.
  simpl. now rewrite !int_str.
Qed.

Lemma join_split_comma s : join_comma (Py.split_comma s) = s.
Proof.
  induction s as [|c r IH]; simpl; [reflexivity|].
  destruct (Ascii.eqb_spec c ",") as [->|Hc].
  - simpl. generalize (split_comma_nonempty r).
    destruct (Py.split_comma r); [congruence|]. intros _. now rewrite IH.
  - generalize (split_comma_nonempty r).
    destruct (Py.split_comma r) as [|f fs]; [congruence|]. intros _.
    simpl in *. destruct fs; simpl in *; now rewrite <- IH.
Qed.

Lemma digits_are_uint s :
  string_forall is_dec_digit s = true ->
  exists d, NilEmpty.string_of_uint d = s.
Proof.
  induction s as [|c r IH]; simpl.
  - intros _. now exists Nil.
  - rewrite andb_true_iff. intros [Hc Hr].
    destruct (IH Hr) as [d <-].
    destruct c as [[|] [|] [|] [|] [|] [|] [|] [|]]; try discriminate Hc;
      first [ now exists (D0 d) | now exists (D1 d) | now exists (D2 d)
            | now exists (D3 d) | now exists (D4 d) | now exists (D5 d)
            | now exists (D6 d) | now exists (D7 d) | now exists (D8 d)
            | now exists (D9 d) ].
Qed.

Lemma positive_digits_uint s :
  positive_digits s = true ->
  exists d, NilEmpty.string_of_uint d = s /\ d <> Nil /\ nzhead d = d.
Proof.
  destruct s as [|c r]; simpl; [discriminate|].
  rewrite !andb_true_iff, negb_true_iff. intros [[Hz Hc] Hr].
  destruct (digits_are_uint (String c r)) as [d Hd].
  { simpl. now rewrite Hc, Hr. }
  exists d. split; [exact Hd|].
  destruct d; simpl in Hd; try discriminate; split; try discriminate;
    try reflexivity.
  injection Hd as <- _. discriminate.
Qed.

Lemma str_of_uint d :
  d <> Nil -> nzhead d = d ->
  Py.str (Z.of_uint d) = NilEmpty.string_of_uint d.
Proof.
  intros Hd Hnz. unfold Py.str.
  change (Z.of_uint d) with (Z.of_int (Pos d)).
  rewrite DecimalZ.to_of. simpl. unfold unorm. rewrite Hnz.
  destruct d; try congruence; reflexivity.
Qed.

Lemma str_of_neg_uint d :
  d <> Nil -> nzhead d = d ->
  Py.str (- Z.of_uint d) = String "-" (NilEmpty.string_of_uint d).
Proof.
  intros Hd Hnz. unfold Py.str.
  change (- Z.of_uint d) with (Z.of_int (Neg d)).
  rewrite DecimalZ.to_of. simpl. rewrite Hnz.
  destruct d; try congruence; reflexivity.
Qed.

(** On canonical text [str] inverts [int]. *)
Lemma str_int_canonical s :
  canonical_int s = true -> exists n, Py.int s = Ok n /\ Py.str n = s.
Proof.
  intros Hs.
  assert (Hpos : forall t, positive_digits t = true ->
            exists n, Py.int t = Ok n /\ Py.str n = t).
  { intros t Ht. destruct (positive_digits_uint t Ht) as (d & <- & Hd & Hnz).
    exists (Z.of_uint d). split.
    - now apply int_of_uint_string.
    - now apply str_of_uint. }
  destruct s as [|c r]; [discriminate|].
  destruct (Ascii.eqb_spec c "-") as [->|Hc].
  - simpl in Hs.
    destruct (positive_digits_uint r Hs) as (d & <- & Hd & Hnz).
    exists (- Z.of_uint d). split.
    + now apply int_of_neg_uint_string.
    + now apply str_of_neg_uint.
  - assert (Hs' : String.eqb (String c r) "0" || positive_digits (String c r)
                  = true).
    { revert Hs. unfold canonical_int.
      destruct c as [[|] [|] [|] [|] [|] [|] [|] [|]]; auto. }
    apply orb_true_iff in Hs'. destruct Hs' as [H0|Hp]; [|now apply Hpos].
    apply String.eqb_eq in H0. rewrite H0. exists 0. split; reflexivity.
Qed.

Lemma to_string_from_string_canonical s :
  canonical_coord s = true ->
  exists c, Coordinates.from_string s = Ok c /\ Coordinates.to_string c = s.
Proof.
  unfold canonical_coord, Coordinates.from_string. intros Hs.
  pose proof (join_split_comma s) as Hjoin.
  destruct (Py.split_comma s) as [|a [|b [|c [|? ?]]]]; try discriminate.
  rewrite !andb_true_iff in Hs. destruct Hs as [[Ha Hb] Hc].
  destruct (str_int_canonical a Ha) as (na & Hia & Hsa).
  destruct (str_int_canonical b Hb) as (nb & Hib & Hsb).
  destruct (str_int_canonical c Hc) as (nc & Hic & Hsc).
  exists (Coordinates.mk na nb nc). simpl. rewrite Hia, Hib, Hic. simpl.
  split; [reflexivity|].
  unfold Coordinates.to_string. simpl. rewrite Hsa, Hsb, Hsc.
  exact Hjoin.
Qed.

Lemma to_uint_nzhead p : nzhead (Pos.to_uint p) = Pos.to_uint p.
Proof.
  pose proof (DecimalPos.Unsigned.to_of (Pos.to_uint p)) as H.
  rewrite DecimalPos.Unsigned.of_to in H. simpl in H. unfold unorm in H.
  destruct (nzhead (Pos.to_uint p)) eqn:Hnz; try (now symmetry).
  exfalso. now apply (Unsigned.to_uint_nonzero p).
Qed.

Lemma uint_string_positive d :
  d <> Nil -> nzhead d = d ->
  positive_digits (NilEmpty.string_of_uint d) = true.
Proof.
  intros Hd Hnz.
  pose proof (uint_string_digits d) as Hdig.
  destruct d; try congruence; simpl in *; try exact Hdig.
  exfalso. exact (nzhead_nonzero _ _ Hnz).
Qed.

(** Every serialized integer is canonical text. *)
Lemma str_canonical n : canonical_int (Py.str n) = true.
Proof.
  destruct n as [|p|p]; [reflexivity| |].
  - unfold Py.str. simpl.
    pose proof (uint_string_positive (Pos.to_uint p)
                  (Unsigned.to_uint_nonnil p) (to_uint_nzhead p)) as H.
    generalize (Unsigned.to_uint_nonnil p). revert H.
    destruct (Pos.to_uint p); intros H Hn; try congruence; simpl in *;
      try exact H.
    discriminate.
  - unfold Py.str. simpl.
    pose proof (uint_string_positive (Pos.to_uint p)
                  (Unsigned.to_uint_nonnil p) (to_uint_nzhead p)) as H.
    generalize (Unsigned.to_uint_nonnil p). revert H.
    destruct (Pos.to_uint p); intros H Hn; try congruence; exact H.
Qed.

Lemma to_string_canonical c : canonical_coord (Coordinates.to_string c) = true.
Proof.
  destruct c as [a b e]. unfold canonical_coord, Coordinates.to_string.
  simpl.
  rewrite split_comma_field by apply str_no_comma.
  rewrite split_comma_field by apply str_no_comma.
  rewrite split_comma_plain by apply str_no_comma.
  now rewrite !str_canonical.
Qed.

Lemma to_string_inj c c' :
  Coordinates.to_string c = Coordinates.to_string c' -> c = c'.
Proof.
  intros H. pose proof (from_string_to_string c) as Hc.
  rewrite H, from_string_to_string in Hc. congruence.
Qed.

(** *** Dictionaries *)

Section DictFacts.
Context {K V : Type} (dec : forall a b : K, {a = b} + {a <> b}).
Implicit Types (d o : Py.dict K V) (k : K) (v : V).
#[local] Open Scope list_scope.

Lemma getitem_setitem k k' v d :
  Py.getitem dec k (Py.setitem dec k' v d) =
  if dec k k' then Some v else Py.getitem dec k d.
Proof.
  induction d as [|[k0 v0] d IH]; simpl.
  - destruct (dec k k'); reflexivity.
  - destruct (dec k' k0) as [->|Hk0]; simpl.
    + destruct (dec k k0); reflexivity.
    + rewrite IH. destruct (dec k k0) as [->|]; [|reflexivity].
      destruct (dec k0 k'); congruence.
Qed.

Lemma getitem_setitem_same k v d :
  Py.getitem dec k (Py.setitem dec k v d) = Some v.
Proof. rewrite getitem_setitem. destruct (dec k k); congruence. Qed.

Lemma getitem_setitem_other k k' v d :
  k <> k' -> Py.getitem dec k (Py.setitem dec k' v d) = Py.getitem dec k d.
Proof.
  intros Hk. rewrite getitem_setitem. destruct (dec k k'); congruence.
Qed.

Lemma getitem_In k v d : Py.getitem dec k d = Some v -> In (k, v) d.
Proof.
  induction d as [|[k0 v0] d IH]; simpl; [discriminate|].
  destruct (dec k k0) as [->|]; intros H.
  - left. congruence.
  - right. auto.
Qed.

Lemma getitem_None k d : Py.getitem dec k d = None <-> ~ In k (Py.keys d).
Proof.
  induction d as [|[k0 v0] d IH]; simpl; [tauto|].
  destruct (dec k k0) as [->|Hk].
  - split; [discriminate|]. intros H. exfalso. auto.
  - rewrite IH. split; intros H; [intros [?|?]; [congruence|tauto]|tauto].
Qed.

Lemma getitem_Some_key k v d :
  Py.getitem dec k d = Some v -> In k (Py.keys d).
Proof.
  intros H. apply getitem_In in H. now apply (in_map fst) in H.
Qed.

Lemma In_key_getitem k d :
  In k (Py.keys d) -> exists v, Py.getitem dec k d = Some v.
Proof.
  intros H. destruct (Py.getitem dec k d) as [v|] eqn:Hg; [eauto|].
  now apply getitem_None in Hg.
Qed.

Lemma In_getitem k v d :
  NoDup (Py.keys d) -> In (k, v) d -> Py.getitem dec k d = Some v.
Proof.
  induction d as [|[k0 v0] d IH]; simpl; [tauto|].
  intros Hnd [Heq|Hin].
  - injection Heq as -> ->. destruct (dec k k); congruence.
  - inversion Hnd as [|? ? Hk0 Hnd']; subst.
    destruct (dec k k0) as [->|]; [|auto].
    exfalso. apply Hk0. now apply (in_map fst) in Hin.
Qed.

(** Writing a new key appends it; writing an old one keeps the keys. *)
Lemma setitem_fresh k v d :
  ~ In k (Py.keys d) -> Py.setitem dec k v d = d ++ [(k, v)].
Proof.
  induction d as [|[k0 v0] d IH]; simpl; [reflexivity|].
  intros H. destruct (dec k k0) as [->|]; [tauto|].
  rewrite IH; tauto.
Qed.

Lemma keys_setitem_old k v d :
  In k (Py.keys d) -> Py.keys (Py.setitem dec k v d) = Py.keys d.
Proof.
  induction d as [|[k0 v0] d IH]; simpl; [tauto|].
  intros H. destruct (dec k k0) as [->|Hk]; simpl; [reflexivity|].
  rewrite IH; [reflexivity|]. destruct H; congruence.
Qed.

Lemma keys_setitem k v d :
  Py.keys (Py.setitem dec k v d) =
  if in_dec dec k (Py.keys d) then Py.keys d else Py.keys d ++ [k].
Proof.
  destruct (in_dec dec k (Py.keys d)) as [Hin|Hout].
  - now apply keys_setitem_old.
  - rewrite setitem_fresh by assumption. unfold Py.keys.
    now rewrite map_app.
Qed.

Lemma In_keys_setitem k k' v d :
  In k (Py.keys (Py.setitem dec k' v d)) <-> k = k' \/ In k (Py.keys d).
Proof.
  rewrite keys_setitem. destruct (in_dec dec k' (Py.keys d)).
  - split; [tauto|]. intros [->|?]; assumption.
  - rewrite in_app_iff. simpl. intuition congruence.
Qed.

Lemma NoDup_keys_setitem k v d :
  NoDup (Py.keys d) -> NoDup (Py.keys (Py.setitem dec k v d)).
Proof.
  intros Hnd. rewrite keys_setitem.
  destruct (in_dec dec k (Py.keys d)) as [|Hout]; [assumption|].
  apply NoDup_app; [assumption|repeat constructor; simpl; tauto|].
  intros x Hx [<-|[]]. tauto.
Qed.

Lemma NoDup_keys_update d o :
  NoDup (Py.keys d) -> NoDup (Py.keys (Py.update dec d o)).
Proof.
  unfold Py.update. revert d.
  induction o as [|[k v] o IH]; simpl; intros d Hnd; [assumption|].
  apply IH. now apply NoDup_keys_setitem.
Qed.

(** After [d.update(o)] a key of [o] has the value [o] gives it and
    every other key keeps its value. *)
Lemma getitem_update k d o :
  NoDup (Py.keys o) ->
  Py.getitem dec k (Py.update dec d o) =
  match Py.getitem dec k o with
  | Some v => Some v
  | None => Py.getitem dec k d
  end.
Proof.
  unfold Py.update. revert d.
  induction o as [|[k0 v0] o IH]; simpl; intros d Hnd; [reflexivity|].
  inversion Hnd as [|? ? Hk0 Hnd']; subst.
  rewrite (IH _ Hnd'). rewrite getitem_setitem.
  destruct (dec k k0) as [->|]; [|reflexivity].
  destruct (Py.getitem dec k0 o) eqn:Hg; [|reflexivity].
  exfalso. apply Hk0. eapply getitem_Some_key; eauto.
Qed.

Lemma update_fresh d o :
  NoDup (Py.keys o) ->
  (forall k, In k (Py.keys o) -> ~ In k (Py.keys d)) ->
  Py.update dec d o = d ++ o.
Proof.
  unfold Py.update. revert d.
  induction o as [|[k0 v0] o IH]; simpl; intros d Hnd Hfresh.
  - now rewrite List.app_nil_r.
  - inversion Hnd as [|? ? Hk0 Hnd']; subst.
    rewrite setitem_fresh by auto.
    rewrite IH; [now rewrite <- List.app_assoc|assumption|].
    intros k Hk. unfold Py.keys. rewrite map_app, in_app_iff. simpl.
    intros [Hd|[<-|[]]]; [|tauto]. eapply Hfresh; eauto.
Qed.

Lemma update_nil o : NoDup (Py.keys o) -> Py.update dec [] o = o.
Proof.
  intros H. rewrite update_fresh; auto.
Qed.

Lemma getitem_app k d o :
  Py.getitem dec k (d ++ o) =
  match Py.getitem dec k d with
  | Some v => Some v
  | None => Py.getitem dec k o
  end.
Proof.
  induction d as [|[k0 v0] d IH]; simpl; [reflexivity|].
  destruct (dec k k0); auto.
Qed.

Lemma getitem_filter k d (f : K * V -> bool) :
  NoDup (Py.keys d) ->
  Py.getitem dec k (filter f d) =
  match Py.getitem dec k d with
  | Some v => if f (k, v) then Some v else None
  | None => None
  end.
Proof.
  induction d as [|[k0 v0] d IH]; simpl; [reflexivity|].
  intros Hnd. inversion Hnd as [|? ? Hk0 Hnd']; subst.
  destruct (dec k k0) as [->|Hk].
  - destruct (f (k0, v0)) eqn:Hf; simpl.
    + destruct (dec k0 k0); congruence.
    + rewrite (IH Hnd').
      destruct (Py.getitem dec k0 d) eqn:Hg; [|reflexivity].
      exfalso. apply Hk0. eapply getitem_Some_key; eauto.
  - destruct (f (k0, v0)); simpl; [|auto].
    destruct (dec k k0); [congruence|auto].
Qed.

Lemma NoDup_keys_filter d (f : K * V -> bool) :
  NoDup (Py.keys d) -> NoDup (Py.keys (filter f d)).
Proof.
  induction d as [|[k0 v0] d IH]; simpl; [auto|].
  intros Hnd. inversion Hnd as [|? ? Hk0 Hnd']; subst.
  destruct (f (k0, v0)); simpl; [|auto].
  constructor; [|auto]. intros Hin. apply Hk0.
  unfold Py.keys in *. rewrite in_map_iff in *.
  destruct Hin as (x & Hx & Hin). exists x. split; [assumption|].
  now apply filter_In in Hin.
Qed.
End DictFacts.

(** *** Loops, ranges, minimum and maximum *)

Lemma bind_Ok_inv {A B} (m : result A) (k : A -> result B) b :
  bind m k = Ok b -> exists a, m = Ok a /\ k a = Ok b.
Proof. destruct m; simpl; [eauto|discriminate]. Qed.

(** A loop whose body never raises is a fold. *)
Lemma for_each_total {A S} (items : list A) (body : S -> A -> result S)
    (f : S -> A -> S) s :
  (forall s a, In a items -> body s a = Ok (f s a)) ->
  for_each items body s = Ok (fold_left f items s).
Proof.
  revert s. induction items as [|a items IH]; simpl; intros s Hbody.
  - reflexivity.
  - rewrite Hbody by auto. simpl. apply IH. auto.
Qed.

(** A loop whose body always raises [e] raises [e] as soon as there is an
    item. *)
Lemma for_each_raise {A S} (items : list A) (body : S -> A -> result S) e s :
  items <> [] -> (forall s a, body s a = Raise e) ->
  for_each items body s = Raise e.
Proof.
  destruct items as [|a items]; [congruence|]. intros _ Hbody. simpl.
  now rewrite Hbody.
Qed.

Lemma In_range lo hi x : In x (Py.range lo hi) <-> lo <= x < hi.
Proof.
  unfold Py.range. rewrite in_map_iff. split.
  - intros (i & <- & Hi). apply in_seq in Hi. lia.
  - intros Hx. exists (Z.to_nat (x - lo)). split; [lia|].
    apply in_seq. lia.
Qed.

Lemma NoDup_range lo hi : NoDup (Py.range lo hi).
Proof.
  unfold Py.range. apply NoDup_map_NoDup_ForallPairs; [|apply seq_NoDup].
  intros i j _ _ H. lia.
Qed.

Lemma range_nonempty lo hi : lo < hi -> Py.range lo hi <> [].
Proof.
  intros H Hnil. assert (Hin : In lo (Py.range lo hi)) by (apply In_range; lia).
  rewrite Hnil in Hin. exact Hin.
Qed.

Lemma fold_min_spec rest x :
  let m := fold_left Z.min rest x in
  In m (x :: rest) /\ forall a, In a (x :: rest) -> m <= a.
Proof.
  revert x. induction rest as [|b rest IH]; intros x; simpl.
  - split; [auto|]. intros a [<-|[]]. lia.
  - destruct (IH (Z.min x b)) as [Hin Hle]. split.
    + destruct Hin as [Hm|Hin]; [|auto].
      rewrite <- Hm. destruct (Z.min_spec x b) as [[_ ->]|[_ ->]]; auto.
    + intros a [Ha|[Ha|Ha]].
      * specialize (Hle (Z.min x b) (or_introl eq_refl)). lia.
      * specialize (Hle (Z.min x b) (or_introl eq_refl)). lia.
      * apply Hle. now right.
Qed.

Lemma fold_max_spec rest x :
  let m := fold_left Z.max rest x in
  In m (x :: rest) /\ forall a, In a (x :: rest) -> a <= m.
Proof.
  revert x. induction rest as [|b rest IH]; intros x; simpl.
  - split; [auto|]. intros a [<-|[]]. lia.
  - destruct (IH (Z.max x b)) as [Hin Hle]. split.
    + destruct Hin as [Hm|Hin]; [|auto].
      rewrite <- Hm. destruct (Z.max_spec x b) as [[_ ->]|[_ ->]]; auto.
    + intros a [Ha|[Ha|Ha]].
      * specialize (Hle (Z.max x b) (or_introl eq_refl)). lia.
      * specialize (Hle (Z.max x b) (or_introl eq_refl)). lia.
      * apply Hle. now right.
Qed.

Lemma min_Ok_iff xs m : Py.min xs = Ok m <-> is_min xs m.
Proof.
  destruct xs as [|x rest]; simpl.
  - split; [discriminate|]. intros [[] _].
  - pose proof (fold_min_spec rest x) as [Hin Hle]. split.
    + intros [= <-]. split; assumption.
    + intros [Hin' Hle']. f_equal.
      specialize (Hle _ Hin'). specialize (Hle' _ Hin). lia.
Qed.

Lemma max_Ok_iff xs m : Py.max xs = Ok m <-> is_max xs m.
Proof.
  destruct xs as [|x rest]; simpl.
  - split; [discriminate|]. intros [[] _].
  - pose proof (fold_max_spec rest x) as [Hin Hle]. split.
    + intros [= <-]. split; assumption.
    + intros [Hin' Hle']. f_equal.
      specialize (Hle _ Hin'). specialize (Hle' _ Hin). lia.
Qed.

(** *** Parsing the keys and the bounding box *)

Lemma parse_keys_Forall2 ks cs :
  parse_keys ks = Ok cs <->
  Forall2 (fun k c => Coordinates.from_string k = Ok c) ks cs.
Proof.
  revert cs. induction ks as [|k ks IH]; simpl; intros cs.
  - split; [intros [= <-]; constructor|]. now inversion 1.
  - split.
    + intros H. apply bind_Ok_inv in H as (c & Hc & H).
      apply bind_Ok_inv in H as (cs' & Hcs & [= <-]).
      constructor; [assumption|]. now apply IH.
    + inversion 1 as [|? c ? cs' Hc Hcs]; subst.
      rewrite Hc. simpl. apply IH in Hcs. now rewrite Hcs.
Qed.

Lemma Forall2_parsed_in ks cs :
  Forall2 (fun k c => Coordinates.from_string k = Ok c) ks cs ->
  forall c, In c cs <-> parsed_in ks c.
Proof.
  induction 1 as [|k c0 ks cs Hk _ IH]; intros c; simpl.
  - split; [tauto|]. intros (k & [] & _).
  - rewrite IH. split.
    + intros [<-|(k' & Hin & Hp)]; [exists k|exists k']; simpl; auto.
    + intros (k' & [<-|Hin] & Hp); [left; congruence|right; exists k'; auto].
Qed.

Lemma parse_keys_total ks :
  (forall k, In k ks -> exists c, Coordinates.from_string k = Ok c) ->
  exists cs, parse_keys ks = Ok cs.
Proof.
  induction ks as [|k ks IH]; simpl; intros Hall; [eauto|].
  destruct (Hall k (or_introl eq_refl)) as [c ->].
  destruct IH as [cs ->]; [auto|]. simpl. eauto.
Qed.

Lemma get_map_bounds_spec blocks b :
  get_map_bounds blocks = Ok b <-> bounds_of blocks b.
Proof.
  unfold get_map_bounds. split.
  - intros H.
    apply bind_Ok_inv in H as (cs & Hcs & H).
    apply bind_Ok_inv in H as (x0 & Hx0 & H).
    apply bind_Ok_inv in H as (x1 & Hx1 & H).
    apply bind_Ok_inv in H as (z0 & Hz0 & H).
    apply bind_Ok_inv in H as (z1 & Hz1 & [= <-]).
    apply parse_keys_Forall2 in Hcs.
    pose proof (Forall2_parsed_in _ _ Hcs) as Hin.
    apply min_Ok_iff in Hx0 as [Hx0 Hx0']. apply max_Ok_iff in Hx1 as [Hx1 Hx1'].
    apply min_Ok_iff in Hz0 as [Hz0 Hz0']. apply max_Ok_iff in Hz1 as [Hz1 Hz1'].
    rewrite in_map_iff in Hx0, Hx1, Hz0, Hz1.
    constructor; simpl.
    + intros k Hk. clear - Hcs Hk. induction Hcs; simpl in *; [tauto|].
      destruct Hk as [<-|Hk]; eauto.
    + destruct Hx0 as (c & Hc & Hi). exists c. split; [now apply Hin|auto].
    + destruct Hx1 as (c & Hc & Hi). exists c. split; [now apply Hin|auto].
    + destruct Hz0 as (c & Hc & Hi). exists c. split; [now apply Hin|auto].
    + destruct Hz1 as (c & Hc & Hi). exists c. split; [now apply Hin|auto].
    + intros c Hc. apply Hin in Hc.
      pose proof (in_map Coordinates.x _ _ Hc) as Hxc.
      pose proof (in_map Coordinates.z _ _ Hc) as Hzc.
      specialize (Hx0' _ Hxc). specialize (Hx1' _ Hxc).
      specialize (Hz0' _ Hzc). specialize (Hz1' _ Hzc). lia.
  - intros [Hparse Hx0 Hx1 Hz0 Hz1 Hcover].
    destruct (parse_keys_total _ Hparse) as [cs Hcs]. rewrite Hcs. simpl.
    apply parse_keys_Forall2 in Hcs.
    pose proof (Forall2_parsed_in _ _ Hcs) as Hin.
    assert (Hmin_x : Py.min (map Coordinates.x cs) = Ok (MapBounds.min_x b)).
    { apply min_Ok_iff. split.
      - destruct Hx0 as (c & Hc & <-). apply in_map. now apply Hin.
      - intros a Ha. apply in_map_iff in Ha as (c & <- & Hc).
        apply Hin in Hc. apply Hcover in Hc. lia. }
    assert (Hmax_x : Py.max (map Coordinates.x cs) = Ok (MapBounds.max_x b)).
    { apply max_Ok_iff. split.
      - destruct Hx1 as (c & Hc & <-). apply in_map. now apply Hin.
      - intros a Ha. apply in_map_iff in Ha as (c & <- & Hc).
        apply Hin in Hc. apply Hcover in Hc. lia. }
    assert (Hmin_z : Py.min (map Coordinates.z cs) = Ok (MapBounds.min_z b)).
    { apply min_Ok_iff. split.
      - destruct Hz0 as (c & Hc & <-). apply in_map. now apply Hin.
      - intros a Ha. apply in_map_iff in Ha as (c & <- & Hc).
        apply Hin in Hc. apply Hcover in Hc. lia. }
    assert (Hmax_z : Py.max (map Coordinates.z cs) = Ok (MapBounds.max_z b)).
    { apply max_Ok_iff. split.
      - destruct Hz1 as (c & Hc & <-). apply in_map. now apply Hin.
      - intros a Ha. apply in_map_iff in Ha as (c & <- & Hc).
        apply Hin in Hc. apply Hcover in Hc. lia. }
    rewrite Hmin_x, Hmax_x, Hmin_z, Hmax_z. simpl. now destruct b.
Qed.

Lemma bounds_of_ordered blocks b :
  bounds_of blocks b ->
  MapBounds.min_x b <= MapBounds.max_x b /\
  MapBounds.min_z b <= MapBounds.max_z b.
Proof.
  intros [_ (c & Hc & _) _ _ _ Hcover]. apply Hcover in Hc. lia.
Qed.

Lemma int_Raise s e : Py.int s = Raise e -> e = ValueError_int_literal s.
Proof.
  unfold Py.int.
  destruct (match Py.strip s with
            | String "-" r => (true, r)
            | String "+" r => (false, r)
            | _ => (false, Py.strip s)
            end) as [negative ds].
  destruct (Py.digits_of ds false); [discriminate|]. now intros [= <-].
Qed.

(** A key that does not parse raises one of the three parsing errors. *)
Lemma from_string_Raise k e :
  Coordinates.from_string k = Raise e ->
  (exists s, e = ValueError_int_literal s) \/
  e = ValueError_unpack_few \/ e = ValueError_unpack_many.
Proof.
  unfold Coordinates.from_string, Coordinates.unpack3.
  destruct (Py.split_comma k) as [|f1 [|f2 [|f3 [|f4 rest]]]]; simpl;
    try (intros [= <-]; tauto);
    repeat match goal with
           | |- context [Py.int ?f] =>
               let H := fresh "Hint" in
               destruct (Py.int f) eqn:H; simpl;
               [|apply int_Raise in H; intros [= <-]; left; eauto]
           end;
    intros [= <-]; tauto.
Qed.

Lemma parse_keys_Raise ks e :
  parse_keys ks = Raise e ->
  exists k, In k ks /\ Coordinates.from_string k = Raise e.
Proof.
  induction ks as [|k ks IH]; simpl; [discriminate|].
  destruct (Coordinates.from_string k) as [c|e'] eqn:Hk; simpl.
  - destruct (parse_keys ks) as [cs|e'']; simpl; [discriminate|].
    intros [= <-]. destruct IH as (k' & Hin & Hk'); eauto.
  - intros [= <-]. eauto.
Qed.

(** A non-empty mapping whose keys all parse has a bounding box. *)
Lemma get_map_bounds_total blocks :
  blocks <> [] ->
  (forall k, In k (Py.keys blocks) ->
             exists c, Coordinates.from_string k = Ok c) ->
  exists b, get_map_bounds blocks = Ok b.
Proof.
  intros Hne Hparse. unfold get_map_bounds.
  destruct (parse_keys_total _ Hparse) as [cs Hcs]. rewrite Hcs. simpl.
  apply parse_keys_Forall2 in Hcs.
  destruct cs as [|c cs]; [inversion Hcs as [Hk|]|simpl; eauto].
  destruct blocks; [congruence|discriminate].
Qed.

(** The empty-sequence error of [get_map_bounds] arises for the empty
    mapping and for nothing else. *)
Lemma get_map_bounds_empty_iff blocks fn :
  get_map_bounds blocks = Raise (ValueError_empty_sequence fn) <->
  blocks = [] /\ fn = "min".
Proof.
  split.
  - destruct blocks as [|item blocks]; [intros [= <-]; auto|].
    intros H. exfalso. unfold get_map_bounds in H.
    destruct (parse_keys (Py.keys (item :: blocks))) as [cs|e] eqn:Hcs.
    + apply parse_keys_Forall2 in Hcs. inversion Hcs; subst.
      simpl in H. discriminate H.
    + simpl in H. injection H as ->.
      apply parse_keys_Raise in Hcs as (k & _ & Hk).
      apply from_string_Raise in Hk as [[s Hs]|[Hs|Hs]]; discriminate Hs.
  - intros [-> ->]. reflexivity.
Qed.

(** ** Resolving names *)

Lemma In_keys_attrs (types : list BlockData.t) acc n :
  In n (Py.keys
          (fold_left
             (fun a block =>
                sset (BlockTypes.attr_name block) (BlockData.id block) a)
             types acc)) <->
  In n (Py.keys acc) \/
  exists block, In block types /\ BlockTypes.attr_name block = n.
Proof.
  revert acc. induction types as [|t types IH]; simpl; intros acc.
  - split; [auto|]. intros [H|(block & [] & _)]. exact H.
  - rewrite IH, In_keys_setitem. split.
    + intros [[->|H]|(block & Hin & Hn)]; eauto.
    + intros [H|(block & [<-|Hin] & Hn)]; eauto.
Qed.

(** A name resolves exactly when some entry of the table has it as its
    normalized name. *)
Lemma getattr_init_Raise types n :
  name_missing types n <->
  BlockTypes.getattr (BlockTypes.init types) n = Raise (AttributeError n).
Proof.
  unfold name_missing, BlockTypes.getattr, BlockTypes.init. simpl.
  destruct (sget n _) as [v|] eqn:Hg.
  - split; [|discriminate]. intros Hall. exfalso.
    apply getitem_Some_key, In_keys_attrs in Hg as [[]|(block & Hin & Hn)].
    exact (Hall block Hin Hn).
  - split; [reflexivity|]. intros _ block Hin Hn.
    apply getitem_None in Hg. apply Hg, In_keys_attrs. eauto.
Qed.

Lemma getattr_cases bt n :
  (exists v, BlockTypes.getattr bt n = Ok v) \/
  BlockTypes.getattr bt n = Raise (AttributeError n).
Proof.
  unfold BlockTypes.getattr. destruct (sget n _); eauto.
Qed.

(** ** The stages as folds *)

Section Folds.
#[local] Open Scope list_scope.

Lemma fold_left_map {A B C} (f : A -> C -> A) (h : B -> C) l a :
  fold_left f (map h l) a = fold_left (fun a x => f a (h x)) l a.
Proof.
  revert a. induction l as [|x l IH]; simpl; intros a; [reflexivity|].
  apply IH.
Qed.

Lemma fold_left_list_prod {A X Y} (F : X -> Y -> A -> A) xs ys a :
  fold_left (fun a x => fold_left (fun a y => F x y a) ys a) xs a =
  fold_left (fun a p => F (fst p) (snd p) a) (list_prod xs ys) a.
Proof.
  revert a. induction xs as [|x xs IH]; simpl; intros a; [reflexivity|].
  rewrite fold_left_app, fold_left_map. simpl. apply IH.
Qed.

Lemma fold_left_filter {A B} (f : A -> B -> A) (p : B -> bool) l a :
  fold_left (fun a x => if p x then f a x else a) l a =
  fold_left f (filter p l) a.
Proof.
  revert a. induction l as [|x l IH]; simpl; intros a; [reflexivity|].
  destruct (p x); simpl; apply IH.
Qed.

Lemma NoDup_list_prod {X Y} (xs : list X) (ys : list Y) :
  NoDup xs -> NoDup ys -> NoDup (list_prod xs ys).
Proof.
  intros Hxs Hys. induction Hxs as [|x xs Hx _ IH]; simpl; [constructor|].
  apply NoDup_app.
  - apply NoDup_map_NoDup_ForallPairs; [|assumption].
    intros y y' _ _ H. congruence.
  - exact IH.
  - intros [x' y'] Hin Hin'. apply in_map_iff in Hin as (y & [= <- <-] & _).
    apply in_prod_iff in Hin'. tauto.
Qed.
End Folds.

Lemma In_surface_cells b x z :
  In (x, z) (surface_cells b) <->
  MapBounds.min_x b <= x <= MapBounds.max_x b /\
  MapBounds.min_z b <= z <= MapBounds.max_z b.
Proof.
  unfold surface_cells. rewrite in_prod_iff, !In_range. lia.
Qed.

Lemma surface_key_inj x z x' z' :
  surface_key x z = surface_key x' z' -> x = x' /\ z = z'.
Proof.
  intros H. apply to_string_inj in H. now injection H.
Qed.

Lemma keys_surface b g :
  Py.keys (surface b g) =
  map (fun p => surface_key (fst p) (snd p)) (surface_cells b).
Proof. unfold Py.keys, surface. now rewrite map_map. Qed.

Lemma NoDup_keys_surface b g : NoDup (Py.keys (surface b g)).
Proof.
  rewrite keys_surface. apply NoDup_map_NoDup_ForallPairs.
  - intros [x z] [x' z'] _ _ H. apply surface_key_inj in H. simpl in H.
    f_equal; tauto.
  - apply NoDup_list_prod; apply NoDup_range.
Qed.

Lemma In_keys_surface b g k :
  In k (Py.keys (surface b g)) <->
  exists x z, k = surface_key x z /\
    MapBounds.min_x b <= x <= MapBounds.max_x b /\
    MapBounds.min_z b <= z <= MapBounds.max_z b.
Proof.
  rewrite keys_surface, in_map_iff. split.
  - intros ([x z] & <- & Hin). apply In_surface_cells in Hin. eauto.
  - intros (x & z & -> & Hin). exists (x, z). split; [reflexivity|].
    now apply In_surface_cells.
Qed.

Lemma getitem_surface b g k :
  sget k (surface b g) =
  if in_dec string_dec k (Py.keys (surface b g)) then Some g else None.
Proof.
  destruct (in_dec string_dec k (Py.keys (surface b g))) as [Hin|Hout].
  - apply (In_key_getitem string_dec) in Hin as [v Hv]. rewrite Hv.
    apply getitem_In in Hv. unfold surface in Hv.
    apply in_map_iff in Hv as (p & [= _ <-] & _). reflexivity.
  - now apply getitem_None.
Qed.

Lemma create_flat_surface_Ok b bt g :
  BlockTypes.getattr bt "GRASS" = Ok g ->
  create_flat_surface b bt = Ok (surface b g).
Proof.
  intros Hg. unfold create_flat_surface.
  rewrite for_each_total with
    (f := fun d x =>
            fold_left (fun d z => sset (surface_key x z) g d)
              (Py.range (MapBounds.min_z b) (MapBounds.max_z b + 1)) d).
  - f_equal.
    rewrite (fold_left_list_prod (fun x z d => sset (surface_key x z) g d)).
    rewrite <- (update_nil string_dec (surface b g))
      by apply NoDup_keys_surface.
    unfold Py.update, surface. now rewrite fold_left_map.
  - intros d x _. apply for_each_total. intros d' z _. now rewrite Hg.
Qed.

Lemma create_flat_surface_Raise b bt e :
  BlockTypes.getattr bt "GRASS" = Raise e ->
  MapBounds.min_x b <= MapBounds.max_x b ->
  MapBounds.min_z b <= MapBounds.max_z b ->
  create_flat_surface b bt = Raise e.
Proof.
  intros Hg Hx Hz. unfold create_flat_surface.
  apply for_each_raise; [apply range_nonempty; lia|].
  intros d x. apply for_each_raise; [apply range_nonempty; lia|].
  intros d' z. now rewrite Hg.
Qed.

Lemma process_existing_blocks_Ok blocks bt w :
  (forall k, In k (Py.keys blocks) ->
             exists c, Coordinates.from_string k = Ok c) ->
  BlockTypes.getattr bt "WATER_STILL" = Ok w ->
  process_existing_blocks blocks bt = Ok (retained w blocks).
Proof.
  intros Hparse Hw. unfold process_existing_blocks, retained, Py.update.
  rewrite <- fold_left_filter.
  apply for_each_total. intros d [k v] Hin. unfold process_block, keeps.
  destruct (Hparse k) as [c Hc]; [now apply (in_map fst) in Hin|].
  simpl. rewrite Hc, Hw. simpl.
  destruct (Z.eqb v w);
    [destruct (Z.leb _ _)|destruct (Z.ltb _ _)]; reflexivity.
Qed.

Lemma process_existing_blocks_Raise blocks bt e :
  (forall k, In k (Py.keys blocks) ->
             exists c, Coordinates.from_string k = Ok c) ->
  blocks <> [] ->
  BlockTypes.getattr bt "WATER_STILL" = Raise e ->
  process_existing_blocks blocks bt = Raise e.
Proof.
  intros Hparse Hne Hw. unfold process_existing_blocks.
  destruct blocks as [|[k v] blocks]; [congruence|]. simpl.
  destruct (Hparse k) as [c Hc]; [now left|]. now rewrite Hc, Hw.
Qed.

Lemma add_center_marker_Ok blocks center bt s :
  BlockTypes.getattr bt "STONE_BRICKS" = Ok s ->
  add_center_marker blocks center bt = Ok (with_marker blocks center s).
Proof.
  intros Hs. destruct center as [cx cz]. unfold add_center_marker.
  change (Py.range 1 (CENTER_MARKER_HEIGHT + 1)) with [1; 2].
  simpl. rewrite Hs. reflexivity.
Qed.

Lemma add_center_marker_Raise blocks center bt e :
  BlockTypes.getattr bt "STONE_BRICKS" = Raise e ->
  add_center_marker blocks center bt = Raise e.
Proof.
  intros Hs. destruct center as [cx cz]. unfold add_center_marker.
  change (Py.range 1 (CENTER_MARKER_HEIGHT + 1)) with [1; 2].
  simpl. now rewrite Hs.
Qed.

Lemma bounds_of_nonempty blocks b : bounds_of blocks b -> blocks <> [].
Proof.
  intros [_ (c & (k & Hin & _) & _) _ _ _ _] ->. exact Hin.
Qed.

(** [main] succeeds exactly when the bounding box exists and the three
    names resolve, and then saves [flattened]. *)
Lemma main_Ok_iff map_data out :
  main map_data = Ok out <->
  exists b g w s,
    let bt := BlockTypes.init (MapData.blockTypes map_data) in
    get_map_bounds (MapData.blocks map_data) = Ok b /\
    BlockTypes.getattr bt "GRASS" = Ok g /\
    BlockTypes.getattr bt "WATER_STILL" = Ok w /\
    BlockTypes.getattr bt "STONE_BRICKS" = Ok s /\
    out = MapData.mk (MapData.blockTypes map_data)
            (flattened b g w s (MapData.blocks map_data)).
Proof.
  unfold main. split.
  - intros H. apply bind_Ok_inv in H as (b & Hb & H).
    pose proof Hb as Hbo. apply get_map_bounds_spec in Hbo.
    pose proof (bounds_of_ordered _ _ Hbo) as [Hx Hz].
    pose proof (bounds_of_nonempty _ _ Hbo) as Hne.
    pose proof (bounds_parse _ _ Hbo) as Hparse.
    set (bt := BlockTypes.init (MapData.blockTypes map_data)) in *.
    destruct (BlockTypes.getattr bt "GRASS") as [g|e] eqn:Hg;
      [|now rewrite (create_flat_surface_Raise b bt e) in H].
    rewrite (create_flat_surface_Ok b bt g Hg) in H. cbn [bind] in H.
    destruct (BlockTypes.getattr bt "WATER_STILL") as [w|e] eqn:Hw;
      [|now rewrite (process_existing_blocks_Raise _ bt e) in H].
    rewrite (process_existing_blocks_Ok _ bt w Hparse Hw) in H. cbn [bind] in H.
    destruct (BlockTypes.getattr bt "STONE_BRICKS") as [s|e] eqn:Hs;
      [|now rewrite (add_center_marker_Raise _ _ bt e) in H].
    rewrite (add_center_marker_Ok _ _ bt s Hs) in H. cbn [bind] in H.
    injection H as <-. exists b, g, w, s. auto.
  - intros (b & g & w & s & Hb & Hg & Hw & Hs & ->). cbv zeta in *.
    rewrite Hb. cbn [bind]. apply get_map_bounds_spec in Hb.
    rewrite (create_flat_surface_Ok _ _ g Hg). cbn [bind].
    rewrite (process_existing_blocks_Ok _ _ w (bounds_parse _ _ Hb) Hw).
    cbn [bind]. now rewrite (add_center_marker_Ok _ _ _ s Hs).
Qed.

(** [main] saves a document whenever the mapping is non-empty, its keys
    parse, and the three names have an entry in the table. *)
Lemma main_succeeds map_data :
  MapData.blocks map_data <> [] ->
  (forall k, In k (Py.keys (MapData.blocks map_data)) ->
             exists c, Coordinates.from_string k = Ok c) ->
  (forall n, In n required_names ->
             ~ name_missing (MapData.blockTypes map_data) n) ->
  exists out, main map_data = Ok out.
Proof.
  intros Hne Hparse Hnames.
  destruct (get_map_bounds_total _ Hne Hparse) as [b Hb].
  assert (Hres : forall n, In n required_names ->
            exists v, BlockTypes.getattr
                        (BlockTypes.init (MapData.blockTypes map_data)) n
                      = Ok v).
  { intros n Hn. destruct (getattr_cases
      (BlockTypes.init (MapData.blockTypes map_data)) n) as [H|H];
      [exact H|].
    exfalso. apply (Hnames n Hn). now apply getattr_init_Raise. }
  destruct (Hres "GRASS") as [g Hg]; [simpl; auto|].
  destruct (Hres "WATER_STILL") as [w Hw]; [simpl; auto|].
  destruct (Hres "STONE_BRICKS") as [st Hs]; [simpl; auto|].
  eexists. apply main_Ok_iff. exists b, g, w, st. cbv zeta. eauto.
Qed.

(** ** Looking keys up in the saved mapping *)

Lemma surface_key_parse x z :
  Coordinates.from_string (surface_key x z) =
  Ok (Coordinates.mk x TARGET_HEIGHT z).
Proof. apply from_string_to_string. Qed.

Lemma marker_key_parse center h :
  Coordinates.from_string (marker_key center h) =
  Ok (Coordinates.mk (fst center) (TARGET_HEIGHT + h) (snd center)).
Proof. apply from_string_to_string. Qed.

Lemma keeps_true w k v :
  keeps w (k, v) = true ->
  exists c, Coordinates.from_string k = Ok c /\
            Coordinates.y c <= TARGET_HEIGHT /\
            (v <> w -> Coordinates.y c < TARGET_HEIGHT).
Proof.
  unfold keeps. simpl. destruct (Coordinates.from_string k) as [c|];
    [|discriminate].
  intros H. exists c. split; [reflexivity|].
  destruct (Z.eqb_spec v w); [apply Z.leb_le in H|apply Z.ltb_lt in H]; lia.
Qed.

Lemma keeps_intro w k v c :
  Coordinates.from_string k = Ok c ->
  (Coordinates.y c < TARGET_HEIGHT \/
   (v = w /\ Coordinates.y c <= TARGET_HEIGHT)) ->
  keeps w (k, v) = true.
Proof.
  intros Hc H. unfold keeps. simpl. rewrite Hc.
  destruct (Z.eqb_spec v w); [apply Z.leb_le|apply Z.ltb_lt]; lia.
Qed.

Section UpdateFacts.
Context {K V : Type} (dec : forall a b : K, {a = b} + {a <> b}).

Lemma getitem_update_In k v (d o : Py.dict K V) :
  Py.getitem dec k (Py.update dec d o) = Some v ->
  In (k, v) o \/ Py.getitem dec k d = Some v.
Proof.
  unfold Py.update. revert d.
  induction o as [|[k0 v0] o IH]; simpl; intros d H; [auto|].
  apply IH in H as [H|H]; [auto|].
  rewrite getitem_setitem in H. destruct (dec k k0) as [->|]; [|auto].
  left. left. congruence.
Qed.

Lemma In_keys_update k (d o : Py.dict K V) :
  In k (Py.keys (Py.update dec d o)) <->
  In k (Py.keys d) \/ In k (Py.keys o).
Proof.
  unfold Py.update. revert d.
  induction o as [|[k0 v0] o IH]; simpl; intros d; [tauto|].
  rewrite IH, In_keys_setitem. simpl. intuition congruence.
Qed.
End UpdateFacts.

Lemma NoDup_keys_retained w blocks : NoDup (Py.keys (retained w blocks)).
Proof. apply NoDup_keys_update. constructor. Qed.

Lemma retained_In w blocks k v :
  sget k (retained w blocks) = Some v ->
  In (k, v) blocks /\ keeps w (k, v) = true.
Proof.
  intros H. apply getitem_update_In in H as [H|H]; [|discriminate].
  now apply filter_In in H.
Qed.

Lemma In_keys_retained w blocks k :
  In k (Py.keys (retained w blocks)) <->
  exists v, In (k, v) blocks /\ keeps w (k, v) = true.
Proof.
  unfold retained. rewrite In_keys_update. simpl. unfold Py.keys.
  rewrite in_map_iff. split.
  - intros [[]|([k' v] & <- & Hin)]. apply filter_In in Hin. eauto.
  - intros (v & Hin & Hk). right. exists (k, v). split; [reflexivity|].
    now apply filter_In.
Qed.

(** On a dictionary (no repeated key) the filter keeps the items in
    place. *)
Lemma retained_filter w blocks :
  NoDup (Py.keys blocks) -> retained w blocks = filter (keeps w) blocks.
Proof.
  intros Hnd. apply update_nil. now apply NoDup_keys_filter.
Qed.

Lemma getitem_retained w blocks k :
  NoDup (Py.keys blocks) ->
  sget k (retained w blocks) =
  match sget k blocks with
  | Some v => if keeps w (k, v) then Some v else None
  | None => None
  end.
Proof.
  intros Hnd. rewrite retained_filter by assumption.
  now apply getitem_filter.
Qed.

Lemma getitem_with_marker k d center s :
  sget k (with_marker d center s) =
  if string_dec k (marker_key center 2) then Some s
  else if string_dec k (marker_key center 1) then Some s
  else sget k d.
Proof. unfold with_marker. now rewrite !getitem_setitem. Qed.

Lemma getitem_flattened b g w s blocks k :
  sget k (flattened b g w s blocks) =
  if string_dec k (marker_key (MapBounds.center b) 2) then Some s
  else if string_dec k (marker_key (MapBounds.center b) 1) then Some s
  else match sget k (retained w blocks) with
       | Some v => Some v
       | None => sget k (surface b g)
       end.
Proof.
  unfold flattened. rewrite getitem_with_marker.
  now rewrite getitem_update by apply NoDup_keys_retained.
Qed.

(** A key of the saved mapping lies on the marker, in the retained part
    or on the surface. *)
Lemma flattened_key_cases b g w s blocks k v :
  sget k (flattened b g w s blocks) = Some v ->
  (exists h, 1 <= h <= CENTER_MARKER_HEIGHT /\
             k = marker_key (MapBounds.center b) h /\ v = s) \/
  (In (k, v) blocks /\ keeps w (k, v) = true) \/
  (In k (Py.keys (surface b g)) /\ v = g).
Proof.
  rewrite getitem_flattened. unfold CENTER_MARKER_HEIGHT.
  destruct (string_dec k _) as [->|_].
  { intros [= <-]. left. exists 2. repeat split; lia. }
  destruct (string_dec k _) as [->|_].
  { intros [= <-]. left. exists 1. repeat split; lia. }
  destruct (sget k (retained w blocks)) as [v'|] eqn:Hr.
  - intros [= <-]. right. left. now apply retained_In.
  - rewrite getitem_surface.
    destruct (in_dec string_dec k _); [|discriminate].
    intros [= <-]. auto.
Qed.

(** Marker keys lie strictly above the target height, so they are
    neither retained nor on the surface. *)
Lemma marker_key_not_retained w blocks center h :
  1 <= h -> sget (marker_key center h) (retained w blocks) = None.
Proof.
  intros Hh. destruct (sget _ _) as [v|] eqn:Hr; [|reflexivity].
  apply retained_In in Hr as [_ Hk]. apply keeps_true in Hk as (c & Hc & Hy & _).
  rewrite marker_key_parse in Hc. injection Hc as <-. simpl in Hy.
  unfold TARGET_HEIGHT in Hy. lia.
Qed.

Lemma marker_key_not_surface b g center h :
  1 <= h -> ~ In (marker_key center h) (Py.keys (surface b g)).
Proof.
  intros Hh Hin. apply In_keys_surface in Hin as (x & z & Heq & _).
  apply to_string_inj in Heq. injection Heq as _ Hy _.
  unfold TARGET_HEIGHT in Hy. lia.
Qed.

(** ** Examples *)

Example main_ex_small :
  main ex_small =
  Ok (MapData.mk ex_types
        [("0,0,0", 1); ("0,-1,0", 3); ("0,1,0", 3); ("0,2,0", 3)]).
Proof. reflexivity. Qed.

Example main_ex_pond :
  main ex_pond =
  Ok (MapData.mk ex_types [("0,0,0", 2); ("0,1,0", 3); ("0,2,0", 3)]).
Proof. reflexivity. Qed.

Example main_ex_lava :
  main ex_lava =
  Ok (MapData.mk ex_types [("0,0,0", 1); ("0,1,0", 3); ("0,2,0", 3)]).
Proof. reflexivity. Qed.

Example from_string_negative :
  Coordinates.from_string "-3,0,7" = Ok (Coordinates.mk (-3) 0 7) /\
  Coordinates.to_string (Coordinates.mk (-3) 0 7) = "-3,0,7".
Proof. split; reflexivity. Qed.

Example from_string_lenient :
  Coordinates.from_string " 1_0 ,+0,-07" = Ok (Coordinates.mk 10 0 (-7)).
Proof. reflexivity. Qed.

Example from_string_malformed :
  Coordinates.from_string "1,2" = Raise ValueError_unpack_few /\
  Coordinates.from_string "1,2,3,4" = Raise ValueError_unpack_many /\
  Coordinates.from_string "1,,3" = Raise (ValueError_int_literal "") /\
  Coordinates.from_string "1,2,3,x" = Raise (ValueError_int_literal "x") /\
  Coordinates.from_string "1,2_,3" = Raise (ValueError_int_literal "2_").
Proof. repeat split; reflexivity. Qed.

(** ** The saved mapping *)

(** The saved mapping, once the bounding box and the ids are named. *)
Lemma main_blocks map_data out b g w s :
  let bt := BlockTypes.init (MapData.blockTypes map_data) in
  main map_data = Ok out ->
  get_map_bounds (MapData.blocks map_data) = Ok b ->
  BlockTypes.getattr bt "GRASS" = Ok g ->
  BlockTypes.getattr bt "WATER_STILL" = Ok w ->
  BlockTypes.getattr bt "STONE_BRICKS" = Ok s ->
  MapData.blocks out = flattened b g w s (MapData.blocks map_data).
Proof.
  intros bt Hmain Hb Hg Hw Hs.
  apply main_Ok_iff in Hmain as (b' & g' & w' & s' & Hb' & Hg' & Hw' & Hs' & ->).
  fold bt in Hg', Hw', Hs'. simpl. congruence.
Qed.

Lemma surface_key_not_marker x z center h :
  1 <= h -> surface_key x z <> marker_key center h.
Proof.
  intros Hh Heq. apply to_string_inj in Heq. injection Heq as _ Hy _.
  unfold TARGET_HEIGHT in Hy. lia.
Qed.

(** Every block strictly below the target height keeps its key and id,
    whatever its type. *)
Lemma below_target_preserved map_data out k block_id c :
  NoDup (Py.keys (MapData.blocks map_data)) ->
  main map_data = Ok out ->
  sget k (MapData.blocks map_data) = Some block_id ->
  Coordinates.from_string k = Ok c ->
  Coordinates.y c <= TARGET_HEIGHT ->
  (Coordinates.y c < TARGET_HEIGHT \/
   BlockTypes.getattr (BlockTypes.init (MapData.blockTypes map_data))
     "WATER_STILL" = Ok block_id) ->
  sget k (MapData.blocks out) = Some block_id.
Proof.
  intros Hnd Hmain Hk Hc Hle Hy.
  apply main_Ok_iff in Hmain as (b & g & w & s & Hb & Hg & Hw & Hs & ->).
  cbv zeta in *. simpl. rewrite getitem_flattened.
  assert (Hmk : forall h, 1 <= h -> k <> marker_key (MapBounds.center b) h).
  { intros h Hh ->. rewrite marker_key_parse in Hc. injection Hc as <-.
    simpl in Hle. unfold TARGET_HEIGHT in Hle. lia. }
  destruct (string_dec _ _) as [Heq|_]; [apply Hmk in Heq; [tauto|lia]|].
  destruct (string_dec _ _) as [Heq|_]; [apply Hmk in Heq; [tauto|lia]|].
  rewrite getitem_retained, Hk by assumption.
  rewrite (keeps_intro w k block_id c Hc); [reflexivity|].
  destruct Hy as [Hy|Hy]; [now left|right]. split; [congruence|assumption].
Qed.

(** ** Running the transform on its own output *)

Section DictOrder.
Context {K V : Type} (dec : forall a b : K, {a = b} + {a <> b}).
Implicit Types (d o : Py.dict K V).
#[local] Open Scope list_scope.

Lemma not_in_true d k : Py.not_in dec d k = true <-> ~ In k (Py.keys d).
Proof.
  unfold Py.not_in. destruct (in_dec dec k (Py.keys d)); intuition congruence.
Qed.

(** Two dictionaries with the same keys in the same order and the same
    values are the same list. *)
Lemma dict_ext d o :
  NoDup (Py.keys d) ->
  Py.keys d = Py.keys o ->
  (forall k, Py.getitem dec k d = Py.getitem dec k o) ->
  d = o.
Proof.
  revert o. induction d as [|[k v] d IH]; intros [|[k' v'] o]; simpl;
    try discriminate; [reflexivity|].
  intros Hnd [= <- Hkeys] Hget. inversion Hnd as [|? ? Hk Hnd']; subst.
  pose proof (Hget k) as Hv. destruct (dec k k); [|congruence].
  injection Hv as <-. f_equal. apply IH; [assumption|assumption|].
  intros k0. specialize (Hget k0).
  destruct (dec k0 k) as [->|]; [|assumption].
  assert (Hd : Py.getitem dec k d = None) by now apply getitem_None.
  assert (Ho : Py.getitem dec k o = None)
    by (apply getitem_None; now rewrite <- Hkeys).
  congruence.
Qed.

(** [update] keeps the keys of [d] in place and appends the new keys of
    [o] in their order. *)
Lemma keys_update d o :
  NoDup (Py.keys o) ->
  Py.keys (Py.update dec d o) =
  Py.keys d ++ filter (Py.not_in dec d) (Py.keys o).
Proof.
  unfold Py.update. revert d.
  induction o as [|[k v] o IH]; simpl; intros d Hnd.
  - now rewrite List.app_nil_r.
  - inversion Hnd as [|? ? Hk Hnd']; subst. rewrite (IH _ Hnd').
    rewrite keys_setitem. unfold Py.not_in at 2.
    destruct (in_dec dec k (Py.keys d)) as [Hin|Hout].
    + f_equal. apply filter_ext_in. intros k0 _. unfold Py.not_in.
      rewrite keys_setitem_old by assumption. reflexivity.
    + rewrite <- List.app_assoc. simpl. do 2 f_equal.
      apply filter_ext_in. intros k0 Hk0. unfold Py.not_in.
      destruct (in_dec dec k0 (Py.keys (Py.setitem dec k v d)))
        as [Hin'|Hout'];
        destruct (in_dec dec k0 (Py.keys d)) as [Hin''|Hout''];
        try reflexivity.
      * apply In_keys_setitem in Hin' as [->|?]; contradiction.
      * exfalso. apply Hout'. apply In_keys_setitem. now right.
Qed.

Lemma filter_filter {A} (p q : A -> bool) (l : list A) :
  filter p (filter q l) = filter (fun a => q a && p a) l.
Proof.
  induction l as [|a l IH]; simpl; [reflexivity|].
  destruct (q a); simpl; [destruct (p a)|]; now rewrite IH.
Qed.

Lemma filter_none {A} (p : A -> bool) (l : list A) :
  (forall a, In a l -> p a = false) -> filter p l = [].
Proof.
  induction l as [|a l IH]; simpl; intros H; [reflexivity|].
  rewrite (H a) by auto. apply IH. auto.
Qed.

Lemma keys_filter_fst (p : K -> bool) d :
  Py.keys (filter (fun item => p (fst item)) d) = filter p (Py.keys d).
Proof.
  induction d as [|[k v] d IH]; simpl; [reflexivity|].
  destruct (p k); simpl; now rewrite IH.
Qed.

(** Filtering a merged dictionary with a test that every merged-in
    item passes, and merging the result again, changes nothing. *)
Lemma update_filter_update (f : K * V -> bool) d o :
  NoDup (Py.keys d) -> NoDup (Py.keys o) ->
  (forall item, In item o -> f item = true) ->
  Py.update dec d (filter f (Py.update dec d o)) = Py.update dec d o.
Proof.
  intros Hd Ho Hf.
  set (u := Py.update dec d o).
  assert (Hu : NoDup (Py.keys u)) by now apply NoDup_keys_update.
  assert (Hfu : NoDup (Py.keys (filter f u))) by now apply NoDup_keys_filter.
  assert (Hitems : forall k v, Py.getitem dec k u = Some v ->
            ~ In k (Py.keys d) -> f (k, v) = true).
  { intros k v Hk Hfresh. apply getitem_update_In in Hk as [Hk|Hk].
    - now apply Hf.
    - exfalso. apply Hfresh. eapply getitem_Some_key; eauto. }
  apply dict_ext.
  - now apply NoDup_keys_update.
  - rewrite keys_update by assumption. unfold u at 2.
    rewrite keys_update by assumption. f_equal.
    transitivity (filter (Py.not_in dec d) (Py.keys u)).
    + rewrite <- !keys_filter_fst. f_equal.
      rewrite filter_filter. apply filter_ext_in.
      intros [k v] Hin. simpl.
      destruct (Py.not_in dec d k) eqn:Hfr; [|apply andb_false_r].
      apply not_in_true in Hfr. rewrite andb_true_r.
      apply Hitems; [|assumption]. now apply In_getitem.
    + unfold u. rewrite keys_update by assumption.
      rewrite filter_app.
      replace (filter (Py.not_in dec d) (Py.keys d)) with (@nil K).
      * simpl. rewrite filter_filter. apply filter_ext.
        intros k. now destruct (Py.not_in dec d k).
      * symmetry. apply filter_none.
        intros k Hk. unfold Py.not_in.
        destruct (in_dec dec k (Py.keys d)); [reflexivity|contradiction].
  - intros k. rewrite (getitem_update dec k d (filter f u) Hfu).
    rewrite (getitem_filter dec k u f Hu).
    unfold u. rewrite (getitem_update dec k d o Ho).
    destruct (Py.getitem dec k o) as [v|] eqn:Hko.
    + rewrite Hf; [reflexivity|]. eapply getitem_In; eauto.
    + destruct (Py.getitem dec k d) as [v|]; [|reflexivity].
      now destruct (f (k, v)).
Qed.
End DictOrder.

Lemma center_in_bounds b :
  MapBounds.min_x b <= MapBounds.max_x b ->
  MapBounds.min_z b <= MapBounds.max_z b ->
  MapBounds.min_x b <= fst (MapBounds.center b) <= MapBounds.max_x b /\
  MapBounds.min_z b <= snd (MapBounds.center b) <= MapBounds.max_z b.
Proof.
  intros Hx Hz. unfold MapBounds.center. simpl.
  pose proof (Z.div_mod (MapBounds.min_x b + MapBounds.max_x b) 2 ltac:(lia)).
  pose proof (Z.mod_pos_bound (MapBounds.min_x b + MapBounds.max_x b) 2
                ltac:(lia)).
  pose proof (Z.div_mod (MapBounds.min_z b + MapBounds.max_z b) 2 ltac:(lia)).
  pose proof (Z.mod_pos_bound (MapBounds.min_z b + MapBounds.max_z b) 2
                ltac:(lia)).
  lia.
Qed.

Lemma In_keys_flattened b g w s blocks k :
  In k (Py.keys (flattened b g w s blocks)) <->
  k = marker_key (MapBounds.center b) 1 \/
  k = marker_key (MapBounds.center b) 2 \/
  In k (Py.keys (retained w blocks)) \/
  In k (Py.keys (surface b g)).
Proof.
  unfold flattened, with_marker.
  rewrite !In_keys_setitem, In_keys_update. tauto.
Qed.

(** The markers are appended after the merged surface and retained
    blocks. *)
Lemma flattened_as_list b g w s blocks :
  flattened b g w s blocks =
  (supdate (surface b g) (retained w blocks)
   ++ [(marker_key (MapBounds.center b) 1, s);
       (marker_key (MapBounds.center b) 2, s)])%list.
Proof.
  unfold flattened, with_marker.
  assert (Hfresh : forall h, 1 <= h ->
            ~ In (marker_key (MapBounds.center b) h)
                (Py.keys (supdate (surface b g) (retained w blocks)))).
  { intros h Hh Hin. apply In_keys_update in Hin as [Hin|Hin].
    - now apply marker_key_not_surface in Hin.
    - apply (In_key_getitem string_dec) in Hin as [v Hv].
      now rewrite marker_key_not_retained in Hv. }
  rewrite (setitem_fresh string_dec (marker_key _ 1)) by (apply Hfresh; lia).
  rewrite setitem_fresh; [now rewrite <- List.app_assoc|].
  unfold Py.keys. rewrite List.map_app, in_app_iff. simpl.
  intros [Hin|[Heq|[]]].
  - apply (Hfresh 2); [lia|exact Hin].
  - apply to_string_inj in Heq. injection Heq as Heq.
    unfold TARGET_HEIGHT in Heq. lia.
Qed.

Lemma NoDup_keys_flattened b g w s blocks :
  NoDup (Py.keys (flattened b g w s blocks)).
Proof.
  unfold flattened, with_marker.
  do 2 apply NoDup_keys_setitem.
  apply NoDup_keys_update, NoDup_keys_surface.
Qed.

(** The saved mapping has the bounding box of the input. *)
Lemma bounds_of_flattened b g w s blocks :
  bounds_of blocks b -> bounds_of (flattened b g w s blocks) b.
Proof.
  intros Hb. pose proof (bounds_of_ordered _ _ Hb) as [Hx Hz].
  pose proof (center_in_bounds b Hx Hz) as [Hcx Hcz].
  assert (Hcorner : forall x z,
            MapBounds.min_x b <= x <= MapBounds.max_x b ->
            MapBounds.min_z b <= z <= MapBounds.max_z b ->
            parsed_in (Py.keys (flattened b g w s blocks))
              (Coordinates.mk x TARGET_HEIGHT z)).
  { intros x z Hxx Hzz. exists (surface_key x z).
    split; [|apply surface_key_parse].
    apply In_keys_flattened. do 3 right. apply In_keys_surface. eauto. }
  assert (Hkeys : forall k, In k (Py.keys (flattened b g w s blocks)) ->
            exists c, Coordinates.from_string k = Ok c /\
              MapBounds.min_x b <= Coordinates.x c <= MapBounds.max_x b /\
              MapBounds.min_z b <= Coordinates.z c <= MapBounds.max_z b).
  { intros k Hk. apply In_keys_flattened in Hk as [->|[->|[Hk|Hk]]].
    - eexists. split; [apply marker_key_parse|].
      cbn [Coordinates.x Coordinates.z]. lia.
    - eexists. split; [apply marker_key_parse|].
      cbn [Coordinates.x Coordinates.z]. lia.
    - apply In_keys_retained in Hk as (v & Hin & Hkeeps).
      apply keeps_true in Hkeeps as (c & Hc & _).
      exists c. split; [assumption|].
      apply (bounds_cover _ _ Hb). exists k. split; [|assumption].
      now apply (in_map fst) in Hin.
    - apply In_keys_surface in Hk as (x & z & -> & Hxx & Hzz).
      eexists. split; [apply surface_key_parse|]. simpl. lia. }
  constructor.
  - intros k Hk. destruct (Hkeys k Hk) as (c & Hc & _). eauto.
  - exists (Coordinates.mk (MapBounds.min_x b) TARGET_HEIGHT (MapBounds.min_z b)).
    split; [apply Hcorner; lia|reflexivity].
  - exists (Coordinates.mk (MapBounds.max_x b) TARGET_HEIGHT (MapBounds.min_z b)).
    split; [apply Hcorner; lia|reflexivity].
  - exists (Coordinates.mk (MapBounds.min_x b) TARGET_HEIGHT (MapBounds.min_z b)).
    split; [apply Hcorner; lia|reflexivity].
  - exists (Coordinates.mk (MapBounds.min_x b) TARGET_HEIGHT (MapBounds.max_z b)).
    split; [apply Hcorner; lia|reflexivity].
  - intros c (k & Hk & Hc). destruct (Hkeys k Hk) as (c' & Hc' & Hcov).
    rewrite Hc in Hc'. injection Hc' as <-. exact Hcov.
Qed.

(** Flattening the flattened mapping gives the same list of items. *)
Lemma flattened_idempotent b g w s blocks :
  flattened b g w s (flattened b g w s blocks) = flattened b g w s blocks.
Proof.
  unfold flattened at 1. unfold flattened at 2. f_equal.
  rewrite retained_filter by apply NoDup_keys_flattened.
  rewrite flattened_as_list, filter_app.
  assert (Hm : forall h, 1 <= h ->
            keeps w (marker_key (MapBounds.center b) h, s) = false).
  { intros h Hh. unfold keeps. simpl. rewrite marker_key_parse. simpl.
    unfold TARGET_HEIGHT.
    destruct (Z.eqb s w); [apply Z.leb_gt|apply Z.ltb_ge]; lia. }
  simpl. rewrite !Hm by lia. rewrite List.app_nil_r.
  apply update_filter_update.
  - apply NoDup_keys_surface.
  - apply NoDup_keys_retained.
  - intros [k v] Hin. eapply retained_In.
    apply In_getitem; [apply NoDup_keys_retained|exact Hin].
Qed.

(** ** Properties of the specification *)

(** C1, as stated, fails: a still-water block at the target height is
    retained under the key the surface builder emits for its cell. *)
Lemma retained_key_on_surface :
  ~ (forall blocks bt b surf kept,
       get_map_bounds blocks = Ok b ->
       create_flat_surface b bt = Ok surf ->
       process_existing_blocks blocks bt = Ok kept ->
       forall k, In k (Py.keys kept) -> ~ In k (Py.keys surf)).
Proof.
  intros H.
  apply (H [("0,0,0", 2)] (BlockTypes.init ex_types)
           (MapBounds.mk 0 0 0 0) [("0,0,0", 1)] [("0,0,0", 2)]
           eq_refl eq_refl eq_refl "0,0,0"); simpl; auto.
Qed.

(** C1 (amended): the retained keys and the surface keys are disjoint
    except for still water at the target height.  A key that is both
    retained by [process_existing_blocks] and emitted by
    [create_flat_surface] belongs to an input block whose id is the
    resolved WATER_STILL id and whose y is the target height. *)
Theorem retained_surface_overlap_is_water
    (blocks : Py.dict string Z) (bt : BlockTypes.t) (b : MapBounds.t)
    (surf kept : Py.dict string Z) (k : string) (v : Z) :
  get_map_bounds blocks = Ok b ->
  create_flat_surface b bt = Ok surf ->
  process_existing_blocks blocks bt = Ok kept ->
  sget k kept = Some v ->
  In k (Py.keys surf) ->
  In (k, v) blocks /\
  BlockTypes.getattr bt "WATER_STILL" = Ok v /\
  exists x z,
    Coordinates.from_string k = Ok (Coordinates.mk x TARGET_HEIGHT z).
Proof.
  intros Hb Hsurf Hkept Hk Hin.
  apply get_map_bounds_spec in Hb.
  pose proof (bounds_of_ordered _ _ Hb) as [Hx Hz].
  pose proof (bounds_of_nonempty _ _ Hb) as Hne.
  pose proof (bounds_parse _ _ Hb) as Hparse.
  destruct (BlockTypes.getattr bt "GRASS") as [g|e] eqn:Hg;
    [|rewrite (create_flat_surface_Raise b bt e) in Hsurf;
      auto; discriminate].
  rewrite (create_flat_surface_Ok b bt g Hg) in Hsurf.
  injection Hsurf as <-.
  destruct (BlockTypes.getattr bt "WATER_STILL") as [w|e] eqn:Hw;
    [|rewrite (process_existing_blocks_Raise _ bt e) in Hkept;
      auto; discriminate].
  rewrite (process_existing_blocks_Ok _ bt w Hparse Hw) in Hkept.
  injection Hkept as <-.
  apply retained_In in Hk as [Hblock Hkeeps].
  apply keeps_true in Hkeeps as (c & Hc & Hy & Hnw).
  apply In_keys_surface in Hin as (x & z & -> & _).
  rewrite surface_key_parse in Hc. injection Hc as <-. simpl in Hnw.
  destruct (Z.eq_dec v w) as [->|Hvw]; [|specialize (Hnw Hvw); lia].
  split; [assumption|]. split; [reflexivity|].
  exists x, z. apply surface_key_parse.
Qed.

Lemma retained_surface_overlap_is_water_witness :
  In ("0,0,0", 2) [("0,0,0", 2)] /\
  BlockTypes.getattr (BlockTypes.init ex_types) "WATER_STILL" = Ok 2 /\
  exists x z,
    Coordinates.from_string "0,0,0" = Ok (Coordinates.mk x TARGET_HEIGHT z).
Proof.
  apply (retained_surface_overlap_is_water
           [("0,0,0", 2)] (BlockTypes.init ex_types)
           (MapBounds.mk 0 0 0 0) [("0,0,0", 1)] [("0,0,0", 2)]);
    try reflexivity.
  simpl. auto.
Defined.

(** C2, as stated, fails: the filter does not read the liquid flag.  A
    lava block, flagged liquid in the table, lying at the target height
    is not retained; its cell holds grass. *)
Lemma flagged_liquid_not_retained :
  ~ (forall map_data out k block_id c,
       NoDup (Py.keys (MapData.blocks map_data)) ->
       main map_data = Ok out ->
       sget k (MapData.blocks map_data) = Some block_id ->
       BlockTypes.is_liquid
         (BlockTypes.init (MapData.blockTypes map_data)) block_id = true ->
       Coordinates.from_string k = Ok c ->
       (Coordinates.y c > TARGET_HEIGHT ->
        sget k (MapData.blocks out) = None) /\
       (Coordinates.y c <= TARGET_HEIGHT ->
        sget k (MapData.blocks out) = Some block_id)).
Proof.
  intros H.
  assert (Hnd : NoDup (Py.keys (MapData.blocks ex_lava))).
  { simpl. repeat constructor. simpl. tauto. }
  destruct (H ex_lava _ "0,0,0" 4 (Coordinates.mk 0 0 0)
              Hnd main_ex_lava eq_refl eq_refl eq_refl) as [_ Hkeep].
  simpl in Hkeep. unfold TARGET_HEIGHT in Hkeep.
  specialize (Hkeep ltac:(lia)). discriminate Hkeep.
Qed.

(** C2 (amended): still-water pruning.  For a block of the input mapping
    whose id is the resolved WATER_STILL id: if its y is above the target
    height its key is absent from the saved mapping, unless the key is a
    centre-marker key, which holds the marker id; if its y is at or below
    the target height its key maps to the same id in the saved mapping. *)
Theorem still_water_pruning (map_data out : MapData.t) (b : MapBounds.t)
    (w s : Z) (k : string) (c : Coordinates.t) :
  NoDup (Py.keys (MapData.blocks map_data)) ->
  main map_data = Ok out ->
  get_map_bounds (MapData.blocks map_data) = Ok b ->
  BlockTypes.getattr (BlockTypes.init (MapData.blockTypes map_data))
    "WATER_STILL" = Ok w ->
  BlockTypes.getattr (BlockTypes.init (MapData.blockTypes map_data))
    "STONE_BRICKS" = Ok s ->
  sget k (MapData.blocks map_data) = Some w ->
  Coordinates.from_string k = Ok c ->
  (Coordinates.y c > TARGET_HEIGHT ->
   sget k (MapData.blocks out) = None \/
   (exists h, 1 <= h <= CENTER_MARKER_HEIGHT /\
              k = marker_key (MapBounds.center b) h) /\
   sget k (MapData.blocks out) = Some s) /\
  (Coordinates.y c <= TARGET_HEIGHT ->
   sget k (MapData.blocks out) = Some w).
Proof.
  intros Hnd Hmain Hb Hw Hs Hk Hc. split.
  - intros Hy.
    destruct (sget k (MapData.blocks out)) as [v|] eqn:Hout; [right|now left].
    destruct (getattr_cases (BlockTypes.init (MapData.blockTypes map_data))
                "GRASS") as [[g Hg]|Hg].
    2:{ apply main_Ok_iff in Hmain as (? & ? & ? & ? & _ & Hg' & _).
        cbv zeta in Hg'. congruence. }
    rewrite (main_blocks _ _ _ _ _ _ Hmain Hb Hg Hw Hs) in Hout.
    apply flattened_key_cases in Hout
      as [(h & Hh & -> & ->)|[[_ Hkeeps]|[Hin _]]].
    + split; [eauto|reflexivity].
    + exfalso. apply keeps_true in Hkeeps as (c' & Hc' & Hy' & _).
      rewrite Hc in Hc'. injection Hc' as <-. lia.
    + exfalso. apply In_keys_surface in Hin as (x & z & -> & _).
      rewrite surface_key_parse in Hc. injection Hc as <-. simpl in Hy. lia.
  - intros Hy.
    apply (below_target_preserved map_data out k w c); auto.
Qed.

Lemma still_water_pruning_witness :
  (5 > TARGET_HEIGHT ->
   sget "0,5,0"
     [("0,0,0", 1); ("0,-1,0", 3); ("0,1,0", 3); ("0,2,0", 3)] = None \/
   (exists h, 1 <= h <= CENTER_MARKER_HEIGHT /\
              "0,5,0" = marker_key (0, 0) h) /\
   sget "0,5,0"
     [("0,0,0", 1); ("0,-1,0", 3); ("0,1,0", 3); ("0,2,0", 3)] = Some 3) /\
  (5 <= TARGET_HEIGHT ->
   sget "0,5,0"
     [("0,0,0", 1); ("0,-1,0", 3); ("0,1,0", 3); ("0,2,0", 3)] = Some 2).
Proof.
  apply (still_water_pruning ex_small
           (MapData.mk ex_types
              [("0,0,0", 1); ("0,-1,0", 3); ("0,1,0", 3); ("0,2,0", 3)])
           (MapBounds.mk 0 0 0 0) 2 3 "0,5,0" (Coordinates.mk 0 5 0));
    try reflexivity.
  simpl. repeat constructor; simpl; intuition discriminate.
Defined.

(** C3, as stated, fails: over a still-water block lying at the target
    height the surface cell holds the water id, not the grass id, and the
    cell is not a marker coordinate. *)
Lemma surface_cell_holds_water :
  ~ (forall map_data out b g x z,
       main map_data = Ok out ->
       get_map_bounds (MapData.blocks map_data) = Ok b ->
       BlockTypes.getattr (BlockTypes.init (MapData.blockTypes map_data))
         "GRASS" = Ok g ->
       MapBounds.min_x b <= x <= MapBounds.max_x b ->
       MapBounds.min_z b <= z <= MapBounds.max_z b ->
       sget (surface_key x z) (MapData.blocks out) = Some g \/
       exists h, 1 <= h <= CENTER_MARKER_HEIGHT /\
                 surface_key x z = marker_key (MapBounds.center b) h).
Proof.
  intros H.
  destruct (H ex_pond _ (MapBounds.mk 0 0 0 0) 1 0 0
              main_ex_pond eq_refl eq_refl) as [Hg|(h & Hh & Heq)];
    simpl; try lia.
  - discriminate Hg.
  - apply surface_key_not_marker in Heq; [exact Heq|lia].
Qed.

(** C3 (amended): surface completeness.  After the transform every cell
    (x, z) of the bounding box has a block at the target height: the
    still-water id where the input had a still-water block under that
    key, the grass id everywhere else.  The centre marker never
    overwrites a surface cell. *)
Theorem surface_complete (map_data out : MapData.t) (b : MapBounds.t)
    (g w : Z) (x z : Z) :
  main map_data = Ok out ->
  get_map_bounds (MapData.blocks map_data) = Ok b ->
  BlockTypes.getattr (BlockTypes.init (MapData.blockTypes map_data))
    "GRASS" = Ok g ->
  BlockTypes.getattr (BlockTypes.init (MapData.blockTypes map_data))
    "WATER_STILL" = Ok w ->
  MapBounds.min_x b <= x <= MapBounds.max_x b ->
  MapBounds.min_z b <= z <= MapBounds.max_z b ->
  (In (surface_key x z, w) (MapData.blocks map_data) ->
   sget (surface_key x z) (MapData.blocks out) = Some w) /\
  (~ In (surface_key x z, w) (MapData.blocks map_data) ->
   sget (surface_key x z) (MapData.blocks out) = Some g).
Proof.
  intros Hmain Hb Hg Hw Hx Hz.
  destruct (getattr_cases (BlockTypes.init (MapData.blockTypes map_data))
              "STONE_BRICKS") as [[s Hs]|Hs].
  2:{ apply main_Ok_iff in Hmain as (? & ? & ? & ? & _ & _ & _ & Hs' & _).
      cbv zeta in Hs'. congruence. }
  rewrite (main_blocks _ _ _ _ _ _ Hmain Hb Hg Hw Hs), getitem_flattened.
  destruct (string_dec _ _) as [Heq|_];
    [now apply surface_key_not_marker in Heq|].
  destruct (string_dec _ _) as [Heq|_];
    [now apply surface_key_not_marker in Heq|].
  assert (Hwater : forall v,
            In (surface_key x z, v) (MapData.blocks map_data) ->
            keeps w (surface_key x z, v) = true -> v = w).
  { intros v _ Hk. apply keeps_true in Hk as (c & Hc & Hy & Hnw).
    rewrite surface_key_parse in Hc. injection Hc as <-. simpl in Hnw.
    destruct (Z.eq_dec v w) as [|Hvw]; [assumption|].
    specialize (Hnw Hvw). lia. }
  destruct (sget (surface_key x z) (retained w (MapData.blocks map_data)))
    as [v|] eqn:Hr.
  - apply retained_In in Hr as [Hin Hk].
    pose proof (Hwater v Hin Hk) as Hv. subst v.
    split; [reflexivity|]. intros Hn. contradiction.
  - split.
    + intros Hin. exfalso.
      apply (getitem_None string_dec) in Hr. apply Hr.
      apply In_keys_retained. exists w. split; [assumption|].
      apply keeps_intro with (c := Coordinates.mk x TARGET_HEIGHT z);
        [apply surface_key_parse|]. simpl. right. split; [reflexivity|lia].
    + intros _. rewrite getitem_surface.
      destruct (in_dec string_dec _ _) as [|Hout]; [reflexivity|].
      exfalso. apply Hout, In_keys_surface. eauto.
Qed.

Lemma surface_complete_witness :
  (In (surface_key 0 0, 2) (MapData.blocks ex_pond) ->
   sget (surface_key 0 0)
     [("0,0,0", 2); ("0,1,0", 3); ("0,2,0", 3)] = Some 2) /\
  (~ In (surface_key 0 0, 2) (MapData.blocks ex_pond) ->
   sget (surface_key 0 0)
     [("0,0,0", 2); ("0,1,0", 3); ("0,2,0", 3)] = Some 1).
Proof.
  apply (surface_complete ex_pond
           (MapData.mk ex_types [("0,0,0", 2); ("0,1,0", 3); ("0,2,0", 3)])
           (MapBounds.mk 0 0 0 0) 1 2 0 0);
    try reflexivity; simpl; lia.
Defined.

(** C4, as stated, fails: on the empty mapping the error is the one
    [min] raises for an empty sequence. *)
Lemma empty_bounds_error_is_min_error :
  ~ (exists e, get_map_bounds [] = Raise e /\
               e <> ValueError_empty_sequence "min").
Proof.
  intros (e & He & Hne). apply Hne.
  change (@Raise MapBounds.t (ValueError_empty_sequence "min") = Raise e)
    in He.
  congruence.
Qed.

(** C4 (amended): on an empty block mapping [get_map_bounds] produces no
    bounds; it raises the [ValueError] that [min] raises for an empty
    sequence, and [main] aborts with that error whatever the block-type
    table is.  No other mapping makes [get_map_bounds] raise an
    empty-sequence error. *)
Theorem empty_mapping_raises (block_types : list BlockData.t)
    (blocks : Py.dict string Z) (fn : string) :
  get_map_bounds [] = Raise (ValueError_empty_sequence "min") /\
  main (MapData.mk block_types []) =
  Raise (ValueError_empty_sequence "min") /\
  (get_map_bounds blocks = Raise (ValueError_empty_sequence fn) <->
   blocks = [] /\ fn = "min").
Proof.
  split; [reflexivity|]. split; [reflexivity|].
  apply get_map_bounds_empty_iff.
Qed.

(** C5: idempotence.  When [main] saves a document, running [main] on
    that document saves the very same document (same block-type table,
    same items of the block mapping in the same order), computed from the
    same bounding box. *)
Theorem main_idempotent (map_data out : MapData.t) :
  main map_data = Ok out ->
  main out = Ok out /\
  get_map_bounds (MapData.blocks out) =
  get_map_bounds (MapData.blocks map_data).
Proof.
  intros Hmain.
  apply main_Ok_iff in Hmain as (b & g & w & s & Hb & Hg & Hw & Hs & ->).
  cbv zeta in *. simpl MapData.blocks.
  assert (Hb' : get_map_bounds
                  (flattened b g w s (MapData.blocks map_data)) = Ok b).
  { apply get_map_bounds_spec, bounds_of_flattened.
    now apply get_map_bounds_spec. }
  split; [|congruence].
  apply main_Ok_iff. exists b, g, w, s. cbv zeta. simpl.
  repeat split; try assumption.
  now rewrite flattened_idempotent.
Qed.

Lemma main_idempotent_witness :
  main (MapData.mk ex_types
          [("0,0,0", 1); ("0,-1,0", 3); ("0,1,0", 3); ("0,2,0", 3)]) =
  Ok (MapData.mk ex_types
        [("0,0,0", 1); ("0,-1,0", 3); ("0,1,0", 3); ("0,2,0", 3)]) /\
  get_map_bounds
    [("0,0,0", 1); ("0,-1,0", 3); ("0,1,0", 3); ("0,2,0", 3)] =
  get_map_bounds (MapData.blocks ex_small).
Proof.
  apply (main_idempotent ex_small
           (MapData.mk ex_types
              [("0,0,0", 1); ("0,-1,0", 3); ("0,1,0", 3); ("0,2,0", 3)])).
  reflexivity.
Defined.

(** C6: sub-surface preservation.  A block of the input mapping that is
    not the still-water type and lies strictly below the target height
    is found under the same key with the same id in the saved mapping. *)
Theorem sub_surface_preserved (map_data out : MapData.t) (w : Z)
    (k : string) (block_id : Z) (c : Coordinates.t) :
  NoDup (Py.keys (MapData.blocks map_data)) ->
  main map_data = Ok out ->
  BlockTypes.getattr (BlockTypes.init (MapData.blockTypes map_data))
    "WATER_STILL" = Ok w ->
  sget k (MapData.blocks map_data) = Some block_id ->
  block_id <> w ->
  Coordinates.from_string k = Ok c ->
  Coordinates.y c < TARGET_HEIGHT ->
  sget k (MapData.blocks out) = Some block_id.
Proof.
  intros Hnd Hmain _ Hk _ Hc Hy.
  apply (below_target_preserved map_data out k block_id c); auto. lia.
Qed.

Lemma sub_surface_preserved_witness :
  sget "0,-1,0"
    [("0,0,0", 1); ("0,-1,0", 3); ("0,1,0", 3); ("0,2,0", 3)] = Some 3.
Proof.
  apply (sub_surface_preserved ex_small
           (MapData.mk ex_types
              [("0,0,0", 1); ("0,-1,0", 3); ("0,1,0", 3); ("0,2,0", 3)])
           2 "0,-1,0" 3 (Coordinates.mk 0 (-1) 0)).
  - simpl. repeat constructor; simpl; intuition discriminate.
  - reflexivity.
  - reflexivity.
  - reflexivity.
  - discriminate.
  - reflexivity.
  - reflexivity.
Defined.

(** C7, as stated, fails: a key the parser accepts need not be
    reproduced by serialization.  [int] also reads a plus sign,
    surrounding whitespace, leading zeros and underscores, which [str]
    never writes: ["+3,0,7"] parses to (3, 0, 7), which serializes to
    ["3,0,7"]. *)
Lemma signed_key_not_reproduced :
  ~ (forall s c, Coordinates.from_string s = Ok c ->
                 Coordinates.to_string c = s).
Proof.
  intros H.
  specialize (H "+3,0,7" (Coordinates.mk 3 0 7) eq_refl). discriminate H.
Qed.

(** The canonical strings are exactly the serialized coordinates. *)
Lemma canonical_coord_iff s :
  canonical_coord s = true <-> exists c, Coordinates.to_string c = s.
Proof.
  split.
  - intros Hs. destruct (to_string_from_string_canonical s Hs) as (c & _ & Hc).
    eauto.
  - intros [c <-]. apply to_string_canonical.
Qed.

Lemma split_comma_to_string c :
  Py.split_comma (Coordinates.to_string c) =
  [Py.str (Coordinates.x c); Py.str (Coordinates.y c);
   Py.str (Coordinates.z c)].
Proof.
  destruct c as [a b e]. unfold Coordinates.to_string. simpl.
  rewrite split_comma_field by apply str_no_comma.
  rewrite split_comma_field by apply str_no_comma.
  now rewrite split_comma_plain by apply str_no_comma.
Qed.

(** C7 (amended): coordinate round trip within the interpreter's limit
    of 4300 digits per conversion.  Serializing an integer triple,
    negative components included, each component of at most 4300 digits,
    gives text whose fields are within the limit, and parsing that text
    gives the triple back.  Parsing a coordinate string in canonical form
    (three comma-separated fields, each ["0"] or an optional minus sign
    before digits without a leading zero) whose fields have at most 4300
    digits gives a triple whose components are within the limit, and
    serializing it gives the string back. *)
Theorem coordinate_round_trip (c : Coordinates.t) (s : string) :
  within_digit_limit (Py.str (Coordinates.x c)) = true ->
  within_digit_limit (Py.str (Coordinates.y c)) = true ->
  within_digit_limit (Py.str (Coordinates.z c)) = true ->
  canonical_coord s = true ->
  forallb within_digit_limit (Py.split_comma s) = true ->
  (forallb within_digit_limit (Py.split_comma (Coordinates.to_string c))
   = true /\
   Coordinates.from_string (Coordinates.to_string c) = Ok c) /\
  exists c',
    Coordinates.from_string s = Ok c' /\
    within_digit_limit (Py.str (Coordinates.x c')) = true /\
    within_digit_limit (Py.str (Coordinates.y c')) = true /\
    within_digit_limit (Py.str (Coordinates.z c')) = true /\
    Coordinates.to_string c' = s.
Proof.
  intros Hx Hy Hz Hs Hlimit. split.
  - split; [|apply from_string_to_string].
    rewrite split_comma_to_string. simpl. now rewrite Hx, Hy, Hz.
  - destruct (to_string_from_string_canonical s Hs) as (c' & Hparse & Hback).
    exists c'. split; [exact Hparse|].
    rewrite <- Hback, split_comma_to_string in Hlimit. simpl in Hlimit.
    rewrite !andb_true_iff in Hlimit. tauto.
Qed.

Lemma coordinate_round_trip_witness :
  (forallb within_digit_limit
     (Py.split_comma (Coordinates.to_string (Coordinates.mk (-3) 0 7)))
   = true /\
   Coordinates.from_string
     (Coordinates.to_string (Coordinates.mk (-3) 0 7)) =
   Ok (Coordinates.mk (-3) 0 7)) /\
  exists c',
    Coordinates.from_string "-3,0,7" = Ok c' /\
    within_digit_limit (Py.str (Coordinates.x c')) = true /\
    within_digit_limit (Py.str (Coordinates.y c')) = true /\
    within_digit_limit (Py.str (Coordinates.z c')) = true /\
    Coordinates.to_string c' = "-3,0,7".
Proof.
  apply (coordinate_round_trip (Coordinates.mk (-3) 0 7) "-3,0,7");
    reflexivity.
Defined.

(** C8: marker placement.  For the bounding box 0..4 by 0..2 the centre
    is (2, 1); [add_center_marker] writes the marker id under ["2,1,1"]
    and ["2,2,1"] over whatever mapping it is given and changes no other
    key; and in the mapping [main] saves, those two keys hold the marker
    id and no other key denotes either coordinate. *)
Theorem marker_placement (map_data out : MapData.t) (s : Z) :
  main map_data = Ok out ->
  get_map_bounds (MapData.blocks map_data) = Ok (MapBounds.mk 0 4 0 2) ->
  BlockTypes.getattr (BlockTypes.init (MapData.blockTypes map_data))
    "STONE_BRICKS" = Ok s ->
  MapBounds.center (MapBounds.mk 0 4 0 2) = (2, 1) /\
  (forall prior,
      exists marked,
        add_center_marker prior (2, 1)
          (BlockTypes.init (MapData.blockTypes map_data)) = Ok marked /\
        sget "2,1,1" marked = Some s /\
        sget "2,2,1" marked = Some s /\
        forall k, k <> "2,1,1" -> k <> "2,2,1" ->
                  sget k marked = sget k prior) /\
  sget "2,1,1" (MapData.blocks out) = Some s /\
  sget "2,2,1" (MapData.blocks out) = Some s /\
  (forall k, In k (Py.keys (MapData.blocks out)) ->
     (Coordinates.from_string k = Ok (Coordinates.mk 2 1 1) ->
      k = "2,1,1") /\
     (Coordinates.from_string k = Ok (Coordinates.mk 2 2 1) ->
      k = "2,2,1")).
Proof.
  intros Hmain Hb Hs.
  split; [reflexivity|]. split.
  { intros prior. exists (with_marker prior (2, 1) s).
    split; [now apply add_center_marker_Ok|].
    rewrite !getitem_with_marker. repeat split.
    intros k H1 H2. rewrite getitem_with_marker.
    change (marker_key (2, 1) 2) with "2,2,1".
    change (marker_key (2, 1) 1) with "2,1,1".
    destruct (string_dec k "2,2,1"); [congruence|].
    destruct (string_dec k "2,1,1"); congruence. }
  pose proof Hmain as Hinv.
  apply main_Ok_iff in Hinv as (b & g & w & s' & Hb' & Hg & Hw & Hs' & Hout).
  cbv zeta in *. rewrite Hb in Hb'. injection Hb' as <-.
  rewrite Hs in Hs'. injection Hs' as <-.
  rewrite Hout. simpl MapData.blocks.
  split; [now rewrite getitem_flattened|].
  split; [now rewrite getitem_flattened|].
  intros k Hin. apply (In_key_getitem string_dec) in Hin as [v Hv].
  apply flattened_key_cases in Hv
    as [(h & Hh & -> & _)|[[_ Hkeeps]|[Hin _]]].
  - unfold CENTER_MARKER_HEIGHT in Hh.
    assert (Hh' : h = 1 \/ h = 2) by lia.
    destruct Hh' as [-> | ->]; split; intros H; try reflexivity;
      discriminate H.
  - apply keeps_true in Hkeeps as (c' & Hc' & Hy' & _).
    unfold TARGET_HEIGHT in Hy'.
    split; intros H; rewrite H in Hc'; injection Hc' as <-;
      simpl in Hy'; lia.
  - apply In_keys_surface in Hin as (x & z & -> & _).
    split; intros H; rewrite surface_key_parse in H; discriminate H.
Qed.

Lemma marker_placement_witness :
  sget "2,1,1"
    (flattened (MapBounds.mk 0 4 0 2) 1 2 3 (MapData.blocks ex_wide))
  = Some 3.
Proof.
  apply (marker_placement ex_wide
           (MapData.mk ex_types
              (flattened (MapBounds.mk 0 4 0 2) 1 2 3
                 (MapData.blocks ex_wide)))
           3); reflexivity.
Defined.

(** C9: missing semantic block name.  If the table has no entry whose
    normalized name is one of GRASS, WATER_STILL, STONE_BRICKS, [main]
    never returns a document: it raises.  When the bounding box could be
    computed, the error is the attribute error of the first name, in the
    order GRASS, WATER_STILL, STONE_BRICKS, that has no entry. *)
Theorem missing_name_aborts (map_data : MapData.t) (n : string) :
  In n required_names ->
  name_missing (MapData.blockTypes map_data) n ->
  (exists e, main map_data = Raise e) /\
  (forall b, get_map_bounds (MapData.blocks map_data) = Ok b ->
     let types := MapData.blockTypes map_data in
     (name_missing types "GRASS" ->
      main map_data = Raise (AttributeError "GRASS")) /\
     (~ name_missing types "GRASS" ->
      name_missing types "WATER_STILL" ->
      main map_data = Raise (AttributeError "WATER_STILL")) /\
     (~ name_missing types "GRASS" ->
      ~ name_missing types "WATER_STILL" ->
      name_missing types "STONE_BRICKS" ->
      main map_data = Raise (AttributeError "STONE_BRICKS"))).
Proof.
  intros Hn Hmiss.
  set (bt := BlockTypes.init (MapData.blockTypes map_data)).
  assert (Hstages : forall b,
            get_map_bounds (MapData.blocks map_data) = Ok b ->
            (forall e, BlockTypes.getattr bt "GRASS" = Raise e ->
                       main map_data = Raise e) /\
            (forall g e, BlockTypes.getattr bt "GRASS" = Ok g ->
                         BlockTypes.getattr bt "WATER_STILL" = Raise e ->
                         main map_data = Raise e) /\
            (forall g w e, BlockTypes.getattr bt "GRASS" = Ok g ->
                           BlockTypes.getattr bt "WATER_STILL" = Ok w ->
                           BlockTypes.getattr bt "STONE_BRICKS" = Raise e ->
                           main map_data = Raise e)).
  { intros b Hb. pose proof Hb as Hbo. apply get_map_bounds_spec in Hbo.
    pose proof (bounds_of_ordered _ _ Hbo) as [Hx Hz].
    pose proof (bounds_of_nonempty _ _ Hbo) as Hne.
    pose proof (bounds_parse _ _ Hbo) as Hparse.
    unfold main. fold bt. rewrite Hb. cbn [bind]. repeat split.
    - intros e Hg. now rewrite (create_flat_surface_Raise b bt e).
    - intros g e Hg Hw. rewrite (create_flat_surface_Ok b bt g Hg).
      cbn [bind]. now rewrite (process_existing_blocks_Raise _ bt e).
    - intros g w e Hg Hw Hs. rewrite (create_flat_surface_Ok b bt g Hg).
      cbn [bind]. rewrite (process_existing_blocks_Ok _ bt w Hparse Hw).
      cbn [bind]. now rewrite (add_center_marker_Raise _ _ bt e). }
  assert (Hpresent : forall m,
            ~ name_missing (MapData.blockTypes map_data) m ->
            exists v, BlockTypes.getattr bt m = Ok v).
  { intros m Hm. destruct (getattr_cases bt m) as [H|H]; [exact H|].
    exfalso. apply Hm. now apply getattr_init_Raise. }
  split.
  - destruct (main map_data) as [out|e] eqn:Hmain; [exfalso|eauto].
    apply main_Ok_iff in Hmain
      as (b & g & w & s & _ & Hg & Hw & Hs & _).
    cbv zeta in *. apply getattr_init_Raise in Hmiss.
    destruct Hn as [<-|[<-|[<-|[]]]]; congruence.
  - intros b Hb. destruct (Hstages b Hb) as (Hgrass & Hwater & Hstone).
    cbv zeta. repeat split.
    + intros Hg. apply Hgrass. now apply getattr_init_Raise.
    + intros Hg Hw. destruct (Hpresent _ Hg) as [g Hg'].
      apply (Hwater g); [assumption|]. now apply getattr_init_Raise.
    + intros Hg Hw Hs. destruct (Hpresent _ Hg) as [g Hg'].
      destruct (Hpresent _ Hw) as [w Hw'].
      apply (Hstone g w); [assumption|assumption|].
      now apply getattr_init_Raise.
Qed.

Lemma missing_name_aborts_witness :
  exists e, main (MapData.mk ex_types_no_stone [("0,-1,0", 1)]) = Raise e.
Proof.
  apply (missing_name_aborts
           (MapData.mk ex_types_no_stone [("0,-1,0", 1)]) "STONE_BRICKS").
  - simpl. auto.
  - intros block [<-|[<-|[]]]; discriminate.
Defined.

(** C10: above-surface characterization.  Every key of the saved mapping
    whose y is above the target height is one of the centre-marker keys
    (centre x, target height + h, centre z) with h from 1 to
    CENTER_MARKER_HEIGHT, and its value is the stone-bricks id. *)
Theorem above_surface_is_marker (map_data out : MapData.t)
    (b : MapBounds.t) (s : Z) (k : string) (v : Z) (c : Coordinates.t) :
  main map_data = Ok out ->
  get_map_bounds (MapData.blocks map_data) = Ok b ->
  BlockTypes.getattr (BlockTypes.init (MapData.blockTypes map_data))
    "STONE_BRICKS" = Ok s ->
  sget k (MapData.blocks out) = Some v ->
  Coordinates.from_string k = Ok c ->
  Coordinates.y c > TARGET_HEIGHT ->
  v = s /\
  exists h, 1 <= h <= CENTER_MARKER_HEIGHT /\
    c = Coordinates.mk (fst (MapBounds.center b)) (TARGET_HEIGHT + h)
          (snd (MapBounds.center b)) /\
    k = Coordinates.to_string c.
Proof.
  intros Hmain Hb Hs Hk Hc Hy.
  apply main_Ok_iff in Hmain as (b' & g & w & s' & Hb' & _ & _ & Hs' & ->).
  cbv zeta in *. rewrite Hb in Hb'. injection Hb' as <-.
  rewrite Hs in Hs'. injection Hs' as <-. simpl in Hk.
  apply flattened_key_cases in Hk
    as [(h & Hh & -> & ->)|[[_ Hkeeps]|[Hin _]]].
  - split; [reflexivity|]. exists h. split; [assumption|].
    rewrite marker_key_parse in Hc. injection Hc as <-.
    split; reflexivity.
  - exfalso. apply keeps_true in Hkeeps as (c' & Hc' & Hy' & _).
    rewrite Hc in Hc'. injection Hc' as <-. lia.
  - exfalso. apply In_keys_surface in Hin as (x & z & -> & _).
    rewrite surface_key_parse in Hc. injection Hc as <-. simpl in Hy. lia.
Qed.

Lemma above_surface_is_marker_witness :
  3 = 3 /\
  exists h, 1 <= h <= CENTER_MARKER_HEIGHT /\
    Coordinates.mk 0 2 0 =
    Coordinates.mk (fst (MapBounds.center (MapBounds.mk 0 0 0 0)))
      (TARGET_HEIGHT + h) (snd (MapBounds.center (MapBounds.mk 0 0 0 0))) /\
    "0,2,0" = Coordinates.to_string (Coordinates.mk 0 2 0).
Proof.
  apply (above_surface_is_marker ex_small
           (MapData.mk ex_types
              [("0,0,0", 1); ("0,-1,0", 3); ("0,1,0", 3); ("0,2,0", 3)])
           (MapBounds.mk 0 0 0 0) 3 "0,2,0" 3 (Coordinates.mk 0 2 0));
    reflexivity.
Defined.

(** ** Further properties of the script *)

(** *** When [main] succeeds and how it fails *)

Lemma parse_keys_app_Raise good k rest e :
  (forall k', In k' good -> exists c, Coordinates.from_string k' = Ok c) ->
  Coordinates.from_string k = Raise e ->
  parse_keys (good ++ k :: rest)%list = Raise e.
Proof.
  intros Hgood Hk. induction good as [|k0 good IH]; simpl.
  - now rewrite Hk.
  - destruct (Hgood k0 (or_introl eq_refl)) as [c ->]. simpl.
    rewrite IH; [reflexivity|]. intros k' Hin. apply Hgood. now right.
Qed.

(** [main] saves a document exactly when the block mapping is not empty,
    every key parses, and each of the three names GRASS, WATER_STILL and
    STONE_BRICKS has an entry in the block-type table. *)
Theorem main_succeeds_iff (map_data : MapData.t) :
  (exists out, main map_data = Ok out) <->
  MapData.blocks map_data <> [] /\
  (forall k, In k (Py.keys (MapData.blocks map_data)) ->
             exists c, Coordinates.from_string k = Ok c) /\
  (forall n, In n required_names ->
             ~ name_missing (MapData.blockTypes map_data) n).
Proof.
  split.
  - intros [out Hmain].
    apply main_Ok_iff in Hmain as (b & g & w & s & Hb & Hg & Hw & Hs & _).
    cbv zeta in *. apply get_map_bounds_spec in Hb.
    split; [now apply (bounds_of_nonempty _ b)|].
    split; [now apply (bounds_parse _ b)|].
    intros n Hn Hmiss. apply getattr_init_Raise in Hmiss.
    destruct Hn as [<-|[<-|[<-|[]]]]; congruence.
  - intros (Hne & Hparse & Hnames). now apply main_succeeds.
Qed.

(** A key that does not parse aborts the run with its own parsing error,
    before any block-type name is looked up: if the keys before it (in the
    order of the mapping) parse, [get_map_bounds] and [main] raise the
    error of that key, whatever the block-type table contains. *)
Theorem first_bad_key_aborts (block_types : list BlockData.t)
    (good rest : Py.dict string Z) (k : string) (v : Z) (e : exn) :
  (forall k', In k' (Py.keys good) ->
              exists c, Coordinates.from_string k' = Ok c) ->
  Coordinates.from_string k = Raise e ->
  get_map_bounds (good ++ (k, v) :: rest)%list = Raise e /\
  main (MapData.mk block_types (good ++ (k, v) :: rest)%list) = Raise e.
Proof.
  intros Hgood Hk.
  assert (Hb : get_map_bounds (good ++ (k, v) :: rest)%list = Raise e).
  { unfold get_map_bounds, Py.keys. rewrite List.map_app. simpl.
    now rewrite (parse_keys_app_Raise _ _ _ e Hgood Hk). }
  split; [exact Hb|]. unfold main. simpl MapData.blocks. now rewrite Hb.
Qed.

Lemma first_bad_key_aborts_witness :
  get_map_bounds [("0,-1,0", 3); ("1,2", 1); ("x", 2)] =
  Raise ValueError_unpack_few /\
  main (MapData.mk [] [("0,-1,0", 3); ("1,2", 1); ("x", 2)]) =
  Raise ValueError_unpack_few.
Proof.
  apply (first_bad_key_aborts [] [("0,-1,0", 3)] [("x", 2)] "1,2" 1
           ValueError_unpack_few).
  - intros k' [<-|[]]. eexists. reflexivity.
  - reflexivity.
Defined.

(** *** Where the saved entries come from *)

(** The transform creates nothing below the target height and only
    grass at it: a saved entry whose y is below the target height is an
    entry of the input, unchanged; a saved entry whose y is the target
    height is either a still-water entry of the input or a grass cell of
    the bounding box under its canonical key. *)
Theorem saved_entries_origin (map_data out : MapData.t) (b : MapBounds.t)
    (g w : Z) (k : string) (v : Z) (c : Coordinates.t) :
  main map_data = Ok out ->
  get_map_bounds (MapData.blocks map_data) = Ok b ->
  BlockTypes.getattr (BlockTypes.init (MapData.blockTypes map_data))
    "GRASS" = Ok g ->
  BlockTypes.getattr (BlockTypes.init (MapData.blockTypes map_data))
    "WATER_STILL" = Ok w ->
  sget k (MapData.blocks out) = Some v ->
  Coordinates.from_string k = Ok c ->
  (Coordinates.y c < TARGET_HEIGHT ->
   In (k, v) (MapData.blocks map_data)) /\
  (Coordinates.y c = TARGET_HEIGHT ->
   (v = w /\ In (k, v) (MapData.blocks map_data)) \/
   (v = g /\ k = surface_key (Coordinates.x c) (Coordinates.z c) /\
    MapBounds.min_x b <= Coordinates.x c <= MapBounds.max_x b /\
    MapBounds.min_z b <= Coordinates.z c <= MapBounds.max_z b)).
Proof.
  intros Hmain Hb Hg Hw Hk Hc.
  apply main_Ok_iff in Hmain as (b' & g' & w' & s & Hb' & Hg' & Hw' & _ & ->).
  cbv zeta in *. rewrite Hb in Hb'. injection Hb' as <-.
  rewrite Hg in Hg'. injection Hg' as <-.
  rewrite Hw in Hw'. injection Hw' as <-. simpl in Hk.
  apply flattened_key_cases in Hk
    as [(h & Hh & -> & ->)|[[Hin Hkeeps]|[Hin ->]]].
  - rewrite marker_key_parse in Hc. injection Hc as <-. simpl.
    unfold TARGET_HEIGHT. split; intros; lia.
  - split; [auto|]. intros Hy. left. split; [|assumption].
    apply keeps_true in Hkeeps as (c' & Hc' & _ & Hnw).
    rewrite Hc in Hc'. injection Hc' as <-.
    destruct (Z.eq_dec v w) as [|Hvw]; [assumption|].
    specialize (Hnw Hvw). lia.
  - apply In_keys_surface in Hin as (x & z & -> & Hx & Hz).
    rewrite surface_key_parse in Hc. injection Hc as <-. simpl.
    split; [unfold TARGET_HEIGHT; lia|]. intros _. right. auto.
Qed.

Lemma saved_entries_origin_witness :
  (-1 < TARGET_HEIGHT -> In ("0,-1,0", 3) (MapData.blocks ex_small)) /\
  (-1 = TARGET_HEIGHT ->
   (3 = 2 /\ In ("0,-1,0", 3) (MapData.blocks ex_small)) \/
   (3 = 1 /\ "0,-1,0" = surface_key 0 0 /\ 0 <= 0 <= 0 /\ 0 <= 0 <= 0)).
Proof.
  apply (saved_entries_origin ex_small
           (MapData.mk ex_types
              [("0,0,0", 1); ("0,-1,0", 3); ("0,1,0", 3); ("0,2,0", 3)])
           (MapBounds.mk 0 0 0 0) 1 2 "0,-1,0" 3 (Coordinates.mk 0 (-1) 0));
    reflexivity.
Defined.

(** The marker stands on the surface inside the bounding box: the centre
    column lies within the box, and the saved mapping has a block under
    the centre's surface key and the marker id under the two keys above
    it. *)
Theorem marker_stands_on_surface (map_data out : MapData.t)
    (b : MapBounds.t) (s : Z) :
  main map_data = Ok out ->
  get_map_bounds (MapData.blocks map_data) = Ok b ->
  BlockTypes.getattr (BlockTypes.init (MapData.blockTypes map_data))
    "STONE_BRICKS" = Ok s ->
  let cx := fst (MapBounds.center b) in
  let cz := snd (MapBounds.center b) in
  MapBounds.min_x b <= cx <= MapBounds.max_x b /\
  MapBounds.min_z b <= cz <= MapBounds.max_z b /\
  In (surface_key cx cz) (Py.keys (MapData.blocks out)) /\
  sget (Coordinates.to_string (Coordinates.mk cx (TARGET_HEIGHT + 1) cz))
    (MapData.blocks out) = Some s /\
  sget (Coordinates.to_string (Coordinates.mk cx (TARGET_HEIGHT + 2) cz))
    (MapData.blocks out) = Some s.
Proof.
  intros Hmain Hb Hs cx cz.
  apply main_Ok_iff in Hmain as (b' & g & w & s' & Hb' & _ & _ & Hs' & ->).
  cbv zeta in *. rewrite Hb in Hb'. injection Hb' as <-.
  rewrite Hs in Hs'. injection Hs' as <-.
  apply get_map_bounds_spec in Hb.
  destruct (bounds_of_ordered _ _ Hb) as [Hx Hz].
  destruct (center_in_bounds b Hx Hz) as [Hcx Hcz].
  fold cx in Hcx. fold cz in Hcz. simpl MapData.blocks.
  split; [exact Hcx|]. split; [exact Hcz|]. split.
  - apply In_keys_flattened. do 3 right. apply In_keys_surface. eauto.
  - fold (marker_key (MapBounds.center b) 1).
    fold (marker_key (MapBounds.center b) 2).
    split; rewrite getitem_flattened.
    + destruct (string_dec _ _); [reflexivity|].
      destruct (string_dec _ _); [reflexivity|contradiction].
    + destruct (string_dec _ _); [reflexivity|contradiction].
Qed.

Lemma marker_stands_on_surface_witness :
  0 <= 2 <= 4 /\ 0 <= 1 <= 2 /\
  In (surface_key 2 1)
    (Py.keys (flattened (MapBounds.mk 0 4 0 2) 1 2 3
                (MapData.blocks ex_wide))) /\
  sget (Coordinates.to_string (Coordinates.mk 2 (TARGET_HEIGHT + 1) 1))
    (flattened (MapBounds.mk 0 4 0 2) 1 2 3 (MapData.blocks ex_wide))
  = Some 3 /\
  sget (Coordinates.to_string (Coordinates.mk 2 (TARGET_HEIGHT + 2) 1))
    (flattened (MapBounds.mk 0 4 0 2) 1 2 3 (MapData.blocks ex_wide))
  = Some 3.
Proof.
  apply (marker_stands_on_surface ex_wide
           (MapData.mk ex_types
              (flattened (MapBounds.mk 0 4 0 2) 1 2 3
                 (MapData.blocks ex_wide)))
           (MapBounds.mk 0 4 0 2) 3); reflexivity.
Defined.

(** *** The bounding box *)

(** The bounding box is the smallest rectangle that covers every key: it
    covers the x and z of every key, and every rectangle that does so
    contains it. *)
Theorem bounding_box_minimal (blocks : Py.dict string Z)
    (b b' : MapBounds.t) :
  get_map_bounds blocks = Ok b ->
  (forall k c, In k (Py.keys blocks) -> Coordinates.from_string k = Ok c ->
     MapBounds.min_x b' <= Coordinates.x c <= MapBounds.max_x b' /\
     MapBounds.min_z b' <= Coordinates.z c <= MapBounds.max_z b') ->
  (forall k c, In k (Py.keys blocks) -> Coordinates.from_string k = Ok c ->
     MapBounds.min_x b <= Coordinates.x c <= MapBounds.max_x b /\
     MapBounds.min_z b <= Coordinates.z c <= MapBounds.max_z b) /\
  MapBounds.min_x b' <= MapBounds.min_x b /\
  MapBounds.max_x b <= MapBounds.max_x b' /\
  MapBounds.min_z b' <= MapBounds.min_z b /\
  MapBounds.max_z b <= MapBounds.max_z b'.
Proof.
  intros Hb Hcover'. apply get_map_bounds_spec in Hb.
  destruct Hb as [_ Hx0 Hx1 Hz0 Hz1 Hcover].
  split.
  { intros k c Hk Hc. apply Hcover. exists k. auto. }
  destruct Hx0 as (c0 & (k0 & Hk0 & Hc0) & <-).
  destruct Hx1 as (c1 & (k1 & Hk1 & Hc1) & <-).
  destruct Hz0 as (c2 & (k2 & Hk2 & Hc2) & <-).
  destruct Hz1 as (c3 & (k3 & Hk3 & Hc3) & <-).
  pose proof (Hcover' _ _ Hk0 Hc0). pose proof (Hcover' _ _ Hk1 Hc1).
  pose proof (Hcover' _ _ Hk2 Hc2). pose proof (Hcover' _ _ Hk3 Hc3).
  lia.
Qed.

Lemma bounding_box_minimal_witness :
  (forall k c, In k (Py.keys (MapData.blocks ex_wide)) ->
     Coordinates.from_string k = Ok c ->
     0 <= Coordinates.x c <= 4 /\ 0 <= Coordinates.z c <= 2) /\
  -1 <= 0 /\ 4 <= 5 /\ -1 <= 0 /\ 2 <= 5.
Proof.
  apply (bounding_box_minimal (MapData.blocks ex_wide)
           (MapBounds.mk 0 4 0 2) (MapBounds.mk (-1) 5 (-1) 5)).
  - reflexivity.
  - intros k c [<-|[<-|[<-|[]]]] Hc; vm_compute in Hc;
      injection Hc as <-; simpl; lia.
Defined.

(** The bounding box depends only on the set of keys: neither the order
    of the entries, nor the block ids, nor the y of any key matters.  Two
    mappings with the same keys have the same bounding box. *)
Theorem bounding_box_of_key_set (blocks blocks' : Py.dict string Z)
    (b : MapBounds.t) :
  (forall k, In k (Py.keys blocks) <-> In k (Py.keys blocks')) ->
  get_map_bounds blocks = Ok b ->
  get_map_bounds blocks' = Ok b.
Proof.
  intros Hkeys Hb. apply get_map_bounds_spec in Hb.
  apply get_map_bounds_spec.
  assert (Hp : forall c, parsed_in (Py.keys blocks) c ->
                         parsed_in (Py.keys blocks') c).
  { intros c (k & Hk & Hc). exists k. split; [now apply Hkeys|assumption]. }
  destruct Hb as [Hparse Hx0 Hx1 Hz0 Hz1 Hcover]. constructor.
  - intros k Hk. apply Hparse. now apply Hkeys.
  - destruct Hx0 as (c & Hc & Heq). eauto.
  - destruct Hx1 as (c & Hc & Heq). eauto.
  - destruct Hz0 as (c & Hc & Heq). eauto.
  - destruct Hz1 as (c & Hc & Heq). eauto.
  - intros c (k & Hk & Hc). apply Hcover. exists k.
    split; [now apply Hkeys|assumption].
Qed.

Lemma bounding_box_of_key_set_witness :
  get_map_bounds [("4,0,2", 9); ("0,-2,0", 9)] = Ok (MapBounds.mk 0 4 0 2).
Proof.
  apply (bounding_box_of_key_set
           [("0,-2,0", 3); ("4,0,2", 2); ("0,-2,0", 1)]
           [("4,0,2", 9); ("0,-2,0", 9)] (MapBounds.mk 0 4 0 2)).
  - intros k. simpl. tauto.
  - reflexivity.
Defined.

(** The centre is the floor of the midpoint on each axis, for negative
    coordinates too, and lies inside the box when the box is not
    inverted. *)
Theorem center_is_floor_midpoint (b : MapBounds.t) :
  let cx := fst (MapBounds.center b) in
  let cz := snd (MapBounds.center b) in
  2 * cx <= MapBounds.min_x b + MapBounds.max_x b <= 2 * cx + 1 /\
  2 * cz <= MapBounds.min_z b + MapBounds.max_z b <= 2 * cz + 1 /\
  (MapBounds.min_x b <= MapBounds.max_x b ->
   MapBounds.min_x b <= cx <= MapBounds.max_x b) /\
  (MapBounds.min_z b <= MapBounds.max_z b ->
   MapBounds.min_z b <= cz <= MapBounds.max_z b).
Proof.
  intros cx cz. subst cx cz. unfold MapBounds.center. cbn [fst snd].
  pose proof (Z.div_mod (MapBounds.min_x b + MapBounds.max_x b) 2 ltac:(lia)).
  pose proof (Z.mod_pos_bound (MapBounds.min_x b + MapBounds.max_x b) 2
                ltac:(lia)).
  pose proof (Z.div_mod (MapBounds.min_z b + MapBounds.max_z b) 2 ltac:(lia)).
  pose proof (Z.mod_pos_bound (MapBounds.min_z b + MapBounds.max_z b) 2
                ltac:(lia)).
  lia.
Qed.

(** *** The surface builder *)

Lemma range_length lo hi :
  Z.of_nat (List.length (Py.range lo hi)) = Z.max 0 (hi - lo).
Proof. unfold Py.range. rewrite length_map, length_seq. lia. Qed.

Lemma range_empty lo hi : hi <= lo -> Py.range lo hi = [].
Proof.
  intros H. unfold Py.range.
  replace (Z.to_nat (hi - lo)) with 0%nat by lia. reflexivity.
Qed.

Lemma surface_length b g :
  Z.of_nat (List.length (surface b g)) =
  Z.max 0 (MapBounds.max_x b - MapBounds.min_x b + 1) *
  Z.max 0 (MapBounds.max_z b - MapBounds.min_z b + 1).
Proof.
  unfold surface, surface_cells.
  rewrite length_map, length_prod, Nat2Z.inj_mul, !range_length.
  f_equal; f_equal; lia.
Qed.

(** When GRASS does not resolve, the builder can only have returned
    because a loop had nothing to visit, and then it returned the empty
    mapping. *)
Lemma create_flat_surface_unresolved b bt e surf :
  BlockTypes.getattr bt "GRASS" = Raise e ->
  create_flat_surface b bt = Ok surf ->
  surf = [] /\
  (MapBounds.max_x b < MapBounds.min_x b \/
   MapBounds.max_z b < MapBounds.min_z b).
Proof.
  intros Hg Hsurf.
  assert (Hinv : MapBounds.max_x b < MapBounds.min_x b \/
                 MapBounds.max_z b < MapBounds.min_z b).
  { destruct (Z_lt_le_dec (MapBounds.max_x b) (MapBounds.min_x b)); [auto|].
    destruct (Z_lt_le_dec (MapBounds.max_z b) (MapBounds.min_z b)); [auto|].
    rewrite (create_flat_surface_Raise b bt e) in Hsurf by assumption.
    discriminate Hsurf. }
  split; [|exact Hinv].
  unfold create_flat_surface in Hsurf.
  destruct Hinv as [Hx|Hz].
  - rewrite (range_empty (MapBounds.min_x b)) in Hsurf by lia.
    simpl in Hsurf. congruence.
  - rewrite (range_empty (MapBounds.min_z b)) in Hsurf by lia.
    rewrite (for_each_total _ _ (fun d _ => d)) in Hsurf
      by (intros; reflexivity).
    injection Hsurf as <-.
    now induction (Py.range _ _).
Qed.

(** The mapping [create_flat_surface] returns has one entry per cell of
    the box and nothing else: its keys are pairwise distinct, their
    number is width times depth (zero for an inverted box), and every
    entry holds the resolved GRASS id under the canonical key of a cell
    of the box at the target height. *)
Theorem flat_surface_shape (b : MapBounds.t) (bt : BlockTypes.t)
    (surf : Py.dict string Z) :
  create_flat_surface b bt = Ok surf ->
  NoDup (Py.keys surf) /\
  Z.of_nat (List.length surf) =
    Z.max 0 (MapBounds.max_x b - MapBounds.min_x b + 1) *
    Z.max 0 (MapBounds.max_z b - MapBounds.min_z b + 1) /\
  forall k v, In (k, v) surf ->
    BlockTypes.getattr bt "GRASS" = Ok v /\
    exists x z,
      MapBounds.min_x b <= x <= MapBounds.max_x b /\
      MapBounds.min_z b <= z <= MapBounds.max_z b /\
      k = Coordinates.to_string (Coordinates.mk x TARGET_HEIGHT z).
Proof.
  intros Hsurf.
  destruct (BlockTypes.getattr bt "GRASS") as [g|e] eqn:Hg.
  - rewrite (create_flat_surface_Ok b bt g Hg) in Hsurf.
    injection Hsurf as <-.
    split; [apply NoDup_keys_surface|]. split; [apply surface_length|].
    intros k v Hin. unfold surface in Hin.
    apply in_map_iff in Hin as ([x z] & [= <- <-] & Hcell).
    apply In_surface_cells in Hcell. split; [reflexivity|].
    exists x, z. simpl. tauto.
  - destruct (create_flat_surface_unresolved b bt e surf Hg Hsurf)
      as [-> Hinv].
    split; [constructor|]. split; [simpl; destruct Hinv; nia|].
    intros k v [].
Qed.

Lemma flat_surface_shape_witness :
  NoDup (Py.keys (surface (MapBounds.mk 0 4 0 2) 1)) /\
  Z.of_nat (List.length (surface (MapBounds.mk 0 4 0 2) 1)) =
    Z.max 0 (4 - 0 + 1) * Z.max 0 (2 - 0 + 1) /\
  forall k v, In (k, v) (surface (MapBounds.mk 0 4 0 2) 1) ->
    BlockTypes.getattr (BlockTypes.init ex_types) "GRASS" = Ok v /\
    exists x z,
      0 <= x <= 4 /\ 0 <= z <= 2 /\
      k = Coordinates.to_string (Coordinates.mk x TARGET_HEIGHT z).
Proof.
  apply (flat_surface_shape (MapBounds.mk 0 4 0 2)
           (BlockTypes.init ex_types) (surface (MapBounds.mk 0 4 0 2) 1)).
  reflexivity.
Defined.

(** *** The retention filter *)

Lemma for_each_process_inv bt blocks acc kept :
  for_each blocks (process_block bt) acc = Ok kept ->
  (forall k, In k (Py.keys blocks) ->
             exists c, Coordinates.from_string k = Ok c) /\
  (blocks <> [] -> exists w, BlockTypes.getattr bt "WATER_STILL" = Ok w).
Proof.
  revert acc. induction blocks as [|[k v] blocks IH]; simpl; intros acc H.
  - split; [intros k []|congruence].
  - apply bind_Ok_inv in H as (acc' & Hstep & Hrest).
    unfold process_block in Hstep.
    apply bind_Ok_inv in Hstep as (c & Hc & Hstep).
    apply bind_Ok_inv in Hstep as (w & Hw & _).
    destruct (IH _ Hrest) as [Hparse _]. split; [|eauto].
    intros k' [<-|Hin]; eauto.
Qed.

(** The filter only selects: every entry it returns is an entry of its
    input, no key is repeated, and filtering its own output returns that
    output unchanged. *)
Theorem retention_filter_selects (blocks kept : Py.dict string Z)
    (bt : BlockTypes.t) :
  process_existing_blocks blocks bt = Ok kept ->
  (forall k v, sget k kept = Some v -> In (k, v) blocks) /\
  NoDup (Py.keys kept) /\
  process_existing_blocks kept bt = Ok kept.
Proof.
  intros Hkept. pose proof Hkept as Hinv.
  apply for_each_process_inv in Hinv as [Hparse Hwater].
  destruct blocks as [|item blocks].
  { injection Hkept as <-. repeat split; [discriminate|constructor]. }
  destruct Hwater as [w Hw]; [discriminate|].
  rewrite (process_existing_blocks_Ok _ bt w Hparse Hw) in Hkept.
  injection Hkept as <-.
  split; [intros k v Hk; now apply retained_In in Hk|].
  split; [apply NoDup_keys_retained|].
  rewrite (process_existing_blocks_Ok _ bt w); [|
    intros k Hk; apply In_keys_retained in Hk as (v & Hin & _);
    apply Hparse; now apply (in_map fst) in Hin | exact Hw].
  f_equal. rewrite retained_filter by apply NoDup_keys_retained.
  apply forallb_filter_id, forallb_forall.
  intros [k v] Hin. eapply retained_In.
  apply In_getitem; [apply NoDup_keys_retained|exact Hin].
Qed.

Lemma retention_filter_selects_witness :
  (forall k v, sget k [("0,-1,0", 3)] = Some v ->
               In (k, v) (MapData.blocks ex_small)) /\
  NoDup (Py.keys [("0,-1,0", 3)]) /\
  process_existing_blocks [("0,-1,0", 3)] (BlockTypes.init ex_types) =
  Ok [("0,-1,0", 3)].
Proof.
  apply (retention_filter_selects (MapData.blocks ex_small)
           [("0,-1,0", 3)] (BlockTypes.init ex_types)).
  reflexivity.
Defined.

(** *** The centre marker *)

Section SetitemFacts.
Context {K V : Type} (dec : forall a b : K, {a = b} + {a <> b}).
#[local] Open Scope list_scope.

Lemma setitem_same_value k v (d : Py.dict K V) :
  Py.getitem dec k d = Some v -> Py.setitem dec k v d = d.
Proof.
  induction d as [|[k0 v0] d IH]; simpl; [discriminate|].
  destruct (dec k k0) as [->|]; intros H; [congruence|].
  now rewrite IH.
Qed.

Lemma length_setitem k v (d : Py.dict K V) :
  (List.length d <= List.length (Py.setitem dec k v d) <= S (List.length d))%nat.
Proof.
  induction d as [|[k0 v0] d IH]; simpl; [lia|].
  destruct (dec k k0); simpl; lia.
Qed.

Lemma length_update (d o : Py.dict K V) :
  (List.length d <= List.length (Py.update dec d o)
   <= List.length d + List.length o)%nat.
Proof.
  unfold Py.update. revert d.
  induction o as [|[k v] o IH]; simpl; intros d; [lia|].
  specialize (IH (Py.setitem dec k v d)).
  pose proof (length_setitem k v d). lia.
Qed.
End SetitemFacts.

(** For any centre and any mapping, once STONE_BRICKS resolves the
    marker step succeeds, writes the marker id under the keys of the
    CENTER_MARKER_HEIGHT cells above the centre, leaves every other key
    as it was, adds at most CENTER_MARKER_HEIGHT entries, and applied to
    its own result changes nothing. *)
Theorem center_marker_overlay (prior : Py.dict string Z) (center : Z * Z)
    (bt : BlockTypes.t) (s : Z) :
  BlockTypes.getattr bt "STONE_BRICKS" = Ok s ->
  exists marked,
    add_center_marker prior center bt = Ok marked /\
    (forall k,
       sget k marked =
       if existsb
            (fun h => String.eqb k
               (Coordinates.to_string
                  (Coordinates.mk (fst center) (TARGET_HEIGHT + h)
                     (snd center))))
            (Py.range 1 (CENTER_MARKER_HEIGHT + 1))
       then Some s else sget k prior) /\
    (Z.of_nat (List.length prior) <= Z.of_nat (List.length marked)
     <= Z.of_nat (List.length prior) + CENTER_MARKER_HEIGHT) /\
    add_center_marker marked center bt = Ok marked.
Proof.
  intros Hs. exists (with_marker prior center s).
  split; [now apply add_center_marker_Ok|].
  assert (Hget : forall k,
            sget k (with_marker prior center s) =
            if existsb
                 (fun h => String.eqb k
                    (Coordinates.to_string
                       (Coordinates.mk (fst center) (TARGET_HEIGHT + h)
                          (snd center))))
                 (Py.range 1 (CENTER_MARKER_HEIGHT + 1))
            then Some s else sget k prior).
  { intros k. rewrite getitem_with_marker.
    change (Py.range 1 (CENTER_MARKER_HEIGHT + 1)) with [1; 2].
    cbn [existsb]. fold (marker_key center 1). fold (marker_key center 2).
    destruct (string_dec k (marker_key center 2)) as [->|H2].
    - rewrite String.eqb_refl, orb_true_r. reflexivity.
    - destruct (string_dec k (marker_key center 1)) as [->|H1].
      + rewrite String.eqb_refl. reflexivity.
      + apply String.eqb_neq in H1, H2. now rewrite H1, H2. }
  split; [exact Hget|]. split.
  - unfold with_marker, CENTER_MARKER_HEIGHT.
    pose proof (length_setitem string_dec (marker_key center 1) s prior).
    pose proof (length_setitem string_dec (marker_key center 2) s
                  (sset (marker_key center 1) s prior)).
    lia.
  - rewrite (add_center_marker_Ok _ _ _ s Hs). f_equal.
    unfold with_marker at 1.
    rewrite (setitem_same_value string_dec (marker_key center 1)).
    + apply setitem_same_value. rewrite getitem_with_marker.
      destruct (string_dec _ _); [reflexivity|contradiction].
    + rewrite getitem_with_marker.
      destruct (string_dec _ _); [reflexivity|].
      destruct (string_dec _ _); [reflexivity|contradiction].
Qed.

Lemma center_marker_overlay_witness :
  exists marked,
    add_center_marker [("7,1,-3", 9)] (7, -3) (BlockTypes.init ex_types)
    = Ok marked /\
    (forall k,
       sget k marked =
       if existsb
            (fun h => String.eqb k
               (Coordinates.to_string
                  (Coordinates.mk 7 (TARGET_HEIGHT + h) (-3))))
            (Py.range 1 (CENTER_MARKER_HEIGHT + 1))
       then Some 3 else sget k [("7,1,-3", 9)]) /\
    (Z.of_nat (List.length [("7,1,-3", 9)]) <= Z.of_nat (List.length marked)
     <= Z.of_nat (List.length [("7,1,-3", 9)]) + CENTER_MARKER_HEIGHT) /\
    add_center_marker marked (7, -3) (BlockTypes.init ex_types) = Ok marked.
Proof.
  apply (center_marker_overlay [("7,1,-3", 9)] (7, -3)
           (BlockTypes.init ex_types) 3).
  reflexivity.
Defined.

(** *** The whole run as one expression *)

(** [main] computes the bounding box, resolves the three names in the
    order GRASS, WATER_STILL, STONE_BRICKS, and saves [flattened]; the
    first of these steps that raises decides the error. *)
Lemma main_eval map_data :
  main map_data =
  let bt := BlockTypes.init (MapData.blockTypes map_data) in
  b <- get_map_bounds (MapData.blocks map_data) ;;
  g <- BlockTypes.getattr bt "GRASS" ;;
  w <- BlockTypes.getattr bt "WATER_STILL" ;;
  s <- BlockTypes.getattr bt "STONE_BRICKS" ;;
  Ok (MapData.mk (MapData.blockTypes map_data)
        (flattened b g w s (MapData.blocks map_data))).
Proof.
  cbv zeta. unfold main.
  destruct (get_map_bounds (MapData.blocks map_data)) as [b|e] eqn:Hb;
    [|reflexivity].
  cbn [bind]. apply get_map_bounds_spec in Hb.
  pose proof (bounds_of_ordered _ _ Hb) as [Hx Hz].
  pose proof (bounds_of_nonempty _ _ Hb) as Hne.
  pose proof (bounds_parse _ _ Hb) as Hparse.
  set (bt := BlockTypes.init (MapData.blockTypes map_data)).
  destruct (BlockTypes.getattr bt "GRASS") as [g|e] eqn:Hg;
    [|now rewrite (create_flat_surface_Raise b bt e)].
  rewrite (create_flat_surface_Ok b bt g Hg). cbn [bind].
  destruct (BlockTypes.getattr bt "WATER_STILL") as [w|e] eqn:Hw;
    [|now rewrite (process_existing_blocks_Raise _ bt e)].
  rewrite (process_existing_blocks_Ok _ bt w Hparse Hw). cbn [bind].
  destruct (BlockTypes.getattr bt "STONE_BRICKS") as [s|e] eqn:Hs;
    [|now rewrite (add_center_marker_Raise _ _ bt e)].
  now rewrite (add_center_marker_Ok _ _ bt s Hs).
Qed.

Lemma filter_length_le {A} (f : A -> bool) (l : list A) :
  (List.length (filter f l) <= List.length l)%nat.
Proof.
  induction l as [|a l IH]; simpl; [lia|]. destruct (f a); simpl; lia.
Qed.

(** The saved mapping is a dictionary of bounded size: its keys are
    pairwise distinct, and it has at least one entry per cell of the box
    plus the marker, and at most that many plus one per input entry. *)
Theorem saved_mapping_size (map_data out : MapData.t) (b : MapBounds.t) :
  main map_data = Ok out ->
  get_map_bounds (MapData.blocks map_data) = Ok b ->
  let area := (MapBounds.max_x b - MapBounds.min_x b + 1) *
              (MapBounds.max_z b - MapBounds.min_z b + 1) in
  NoDup (Py.keys (MapData.blocks out)) /\
  area + CENTER_MARKER_HEIGHT <= Z.of_nat (List.length (MapData.blocks out))
  <= area + CENTER_MARKER_HEIGHT
     + Z.of_nat (List.length (MapData.blocks map_data)).
Proof.
  intros Hmain Hb area.
  apply main_Ok_iff in Hmain as (b' & g & w & s & Hb' & _ & _ & _ & ->).
  cbv zeta in *. rewrite Hb in Hb'. injection Hb' as <-.
  simpl MapData.blocks. split; [apply NoDup_keys_flattened|].
  apply get_map_bounds_spec in Hb.
  destruct (bounds_of_ordered _ _ Hb) as [Hx Hz].
  rewrite flattened_as_list, length_app. simpl List.length.
  pose proof (length_update string_dec (surface b g)
                (retained w (MapData.blocks map_data))) as Hu.
  pose proof (length_update string_dec []
                (filter (keeps w) (MapData.blocks map_data))) as Hr.
  fold (retained w (MapData.blocks map_data)) in Hr.
  pose proof (filter_length_le (keeps w) (MapData.blocks map_data)) as Hf.
  pose proof (surface_length b g) as Hs.
  rewrite !Z.max_r in Hs by lia. fold area in Hs.
  unfold CENTER_MARKER_HEIGHT. simpl List.length in Hr. lia.
Qed.

Lemma saved_mapping_size_witness :
  NoDup (Py.keys (flattened (MapBounds.mk 0 4 0 2) 1 2 3
                    (MapData.blocks ex_wide))) /\
  (4 - 0 + 1) * (2 - 0 + 1) + CENTER_MARKER_HEIGHT
  <= Z.of_nat (List.length (flattened (MapBounds.mk 0 4 0 2) 1 2 3
                              (MapData.blocks ex_wide)))
  <= (4 - 0 + 1) * (2 - 0 + 1) + CENTER_MARKER_HEIGHT
     + Z.of_nat (List.length (MapData.blocks ex_wide)).
Proof.
  apply (saved_mapping_size ex_wide
           (MapData.mk ex_types
              (flattened (MapBounds.mk 0 4 0 2) 1 2 3
                 (MapData.blocks ex_wide)))
           (MapBounds.mk 0 4 0 2)); reflexivity.
Defined.

(** *** What the run depends on *)

Lemma attrs_of_names_ids types types' :
  map (fun block => (BlockData.name block, BlockData.id block)) types =
  map (fun block => (BlockData.name block, BlockData.id block)) types' ->
  BlockTypes.attrs (BlockTypes.init types) =
  BlockTypes.attrs (BlockTypes.init types').
Proof.
  intros Heq. unfold BlockTypes.init. cbn [BlockTypes.attrs].
  assert (Hfold : forall l,
            fold_left
              (fun a block =>
                 sset (BlockTypes.attr_name block) (BlockData.id block) a)
              l [] =
            fold_left
              (fun a p =>
                 sset (Py.replace_hyphen (Py.upper (fst p))) (snd p) a)
              (map (fun block => (BlockData.name block, BlockData.id block))
                 l) []).
  { intros l. now rewrite fold_left_map. }
  now rewrite !Hfold, Heq.
Qed.

(** The run reads only the names and ids of the block-type table: two
    tables that agree on them, whatever their texture references and
    liquid flags, give the same saved block mapping, or the same error. *)
Theorem run_ignores_texture_and_liquid_flag
    (types types' : list BlockData.t) (blocks : Py.dict string Z) :
  map (fun block => (BlockData.name block, BlockData.id block)) types =
  map (fun block => (BlockData.name block, BlockData.id block)) types' ->
  match main (MapData.mk types blocks), main (MapData.mk types' blocks) with
  | Ok out, Ok out' => MapData.blocks out = MapData.blocks out'
  | Raise e, Raise e' => e = e'
  | _, _ => False
  end.
Proof.
  intros Heq. apply attrs_of_names_ids in Heq.
  rewrite !main_eval. cbv zeta. simpl MapData.blocks.
  simpl MapData.blockTypes. unfold BlockTypes.getattr. rewrite Heq.
  destruct (get_map_bounds blocks) as [b|e]; [|reflexivity]. cbn [bind].
  destruct (sget "GRASS" _) as [g|]; [|reflexivity]. cbn [bind].
  destruct (sget "WATER_STILL" _) as [w|]; [|reflexivity]. cbn [bind].
  destruct (sget "STONE_BRICKS" _) as [s|]; reflexivity.
Qed.

Lemma run_ignores_texture_and_liquid_flag_witness :
  match main (MapData.mk ex_types (MapData.blocks ex_lava)),
        main (MapData.mk
                [ BlockData.mk 1 "grass" "" true;
                  BlockData.mk 2 "water-still" "" false;
                  BlockData.mk 3 "stone-bricks" "" true;
                  BlockData.mk 4 "lava" "" false ]
                (MapData.blocks ex_lava)) with
  | Ok out, Ok out' => MapData.blocks out = MapData.blocks out'
  | Raise e, Raise e' => e = e'
  | _, _ => False
  end.
Proof.
  apply (run_ignores_texture_and_liquid_flag ex_types
           [ BlockData.mk 1 "grass" "" true;
             BlockData.mk 2 "water-still" "" false;
             BlockData.mk 3 "stone-bricks" "" true;
             BlockData.mk 4 "lava" "" false ]
           (MapData.blocks ex_lava)).
  reflexivity.
Defined.

Lemma getitem_same_entries (d d' : Py.dict string Z) k :
  NoDup (Py.keys d) -> NoDup (Py.keys d') ->
  (forall item, In item d <-> In item d') ->
  sget k d = sget k d'.
Proof.
  intros Hd Hd' Hsame.
  destruct (sget k d) as [v|] eqn:Hk.
  - symmetry. apply In_getitem; [assumption|]. apply Hsame.
    now apply (getitem_In string_dec).
  - destruct (sget k d') as [v'|] eqn:Hk'; [|reflexivity].
    apply (getitem_In string_dec) in Hk'. apply Hsame in Hk'.
    apply (In_getitem string_dec) in Hk'; [congruence|assumption].
Qed.

(** The saved mapping does not depend on the order in which the input
    lists its entries: two dictionaries with the same entries give saved
    mappings that agree on every key. *)
Theorem run_ignores_entry_order (types : list BlockData.t)
    (blocks blocks' : Py.dict string Z) (out : MapData.t) :
  NoDup (Py.keys blocks) -> NoDup (Py.keys blocks') ->
  (forall item, In item blocks <-> In item blocks') ->
  main (MapData.mk types blocks) = Ok out ->
  exists out',
    main (MapData.mk types blocks') = Ok out' /\
    forall k, sget k (MapData.blocks out') = sget k (MapData.blocks out).
Proof.
  intros Hnd Hnd' Hsame Hmain.
  apply main_Ok_iff in Hmain as (b & g & w & s & Hb & Hg & Hw & Hs & ->).
  cbv zeta in *. simpl MapData.blocks in *. simpl MapData.blockTypes in *.
  assert (Hkeys : forall k, In k (Py.keys blocks) <-> In k (Py.keys blocks')).
  { intros k. unfold Py.keys. rewrite !in_map_iff.
    split; intros (item & Hf & Hin); exists item;
      (split; [assumption|now apply Hsame]). }
  assert (Hb' : get_map_bounds blocks' = Ok b).
  { apply get_map_bounds_spec in Hb. apply get_map_bounds_spec.
    destruct Hb as [Hparse Hx0 Hx1 Hz0 Hz1 Hcover].
    assert (Hp : forall c, parsed_in (Py.keys blocks) c ->
                           parsed_in (Py.keys blocks') c).
    { intros c (k & Hk & Hc). exists k. split; [now apply Hkeys|assumption]. }
    constructor.
    - intros k Hk. apply Hparse. now apply Hkeys.
    - destruct Hx0 as (c & Hc & Heq). eauto.
    - destruct Hx1 as (c & Hc & Heq). eauto.
    - destruct Hz0 as (c & Hc & Heq). eauto.
    - destruct Hz1 as (c & Hc & Heq). eauto.
    - intros c (k & Hk & Hc). apply Hcover. exists k.
      split; [now apply Hkeys|assumption]. }
  eexists. split.
  - apply main_Ok_iff. exists b, g, w, s. cbv zeta. simpl. eauto.
  - intros k. simpl MapData.blocks. rewrite !getitem_flattened.
    rewrite !getitem_retained by assumption.
    now rewrite (getitem_same_entries blocks' blocks k Hnd' Hnd)
      by (intros item; symmetry; apply Hsame).
Qed.

Lemma run_ignores_entry_order_witness :
  exists out',
    main (MapData.mk ex_types [("0,5,0", 2); ("0,-1,0", 3)]) = Ok out' /\
    forall k,
      sget k (MapData.blocks out') =
      sget k [("0,0,0", 1); ("0,-1,0", 3); ("0,1,0", 3); ("0,2,0", 3)].
Proof.
  apply (run_ignores_entry_order ex_types (MapData.blocks ex_small)
           [("0,5,0", 2); ("0,-1,0", 3)]
           (MapData.mk ex_types
              [("0,0,0", 1); ("0,-1,0", 3); ("0,1,0", 3); ("0,2,0", 3)])).
  - simpl. repeat constructor; simpl; intuition discriminate.
  - simpl. repeat constructor; simpl; intuition discriminate.
  - intros item. simpl. tauto.
  - reflexivity.
Defined.

(** *** The block-type table *)

Section TableFacts.
Context {A K V : Type} (dec : forall a b : K, {a = b} + {a <> b}).
Context (kf : A -> K) (vf : A -> V).
#[local] Open Scope list_scope.

(** A dictionary built by writing [vf a] under [kf a] for each [a] of a
    list in turn. *)
Let build (l : list A) (acc : Py.dict K V) : Py.dict K V :=
  fold_left (fun d a => Py.setitem dec (kf a) (vf a) d) l acc.

Lemma build_other k l acc :
  (forall a, In a l -> kf a <> k) ->
  Py.getitem dec k (build l acc) = Py.getitem dec k acc.
Proof.
  unfold build. revert acc.
  induction l as [|a l IH]; simpl; intros acc Hl; [reflexivity|].
  rewrite IH by auto. apply getitem_setitem_other.
  intros Heq. apply (Hl a); auto.
Qed.

Lemma build_last before x after acc :
  (forall a, In a after -> kf a <> kf x) ->
  Py.getitem dec (kf x) (build (before ++ x :: after) acc) = Some (vf x).
Proof.
  intros Hafter. unfold build. rewrite fold_left_app. simpl.
  fold (build after
          (Py.setitem dec (kf x) (vf x)
             (fold_left (fun d a => Py.setitem dec (kf a) (vf a) d)
                before acc))).
  rewrite build_other by assumption. apply getitem_setitem_same.
Qed.

Lemma build_Some_In k v l :
  Py.getitem dec k (build l []) = Some v ->
  exists a, In a l /\ kf a = k /\ vf a = v.
Proof.
  unfold build. induction l as [|a l IH] using rev_ind; simpl;
    [discriminate|].
  rewrite fold_left_app. simpl. rewrite getitem_setitem.
  destruct (dec k (kf a)) as [->|].
  - intros [= <-]. exists a. rewrite in_app_iff. simpl. auto.
  - intros H. destruct (IH H) as (a' & Hin & Hk & Hv).
    exists a'. rewrite in_app_iff. auto.
Qed.

Lemma build_None k l :
  Py.getitem dec k (build l []) = None <-> forall a, In a l -> kf a <> k.
Proof.
  split.
  - intros Hnone a Hin Hk. apply in_split in Hin as (l1 & l2 & ->).
    revert Hnone. unfold build. rewrite fold_left_app. simpl.
    intros Hnone. apply getitem_None in Hnone. apply Hnone.
    clear Hnone. subst k.
    generalize (fold_left (fun d a0 => Py.setitem dec (kf a0) (vf a0) d)
                  l1 []).
    intros d.
    assert (Hin : In (kf a) (Py.keys (Py.setitem dec (kf a) (vf a) d)))
      by (apply In_keys_setitem; auto).
    revert Hin. generalize (Py.setitem dec (kf a) (vf a) d).
    induction l2 as [|a2 l2 IH]; simpl; intros d' Hin; [exact Hin|].
    apply IH. apply In_keys_setitem. auto.
  - intros Hl. fold (build l []). now rewrite build_other.
Qed.
End TableFacts.




(** [get_block_name] raises [KeyError] exactly for an id that no entry
    of the table has; otherwise it returns the name of the last entry
    with that id. *)
Theorem get_block_name_lookup (types : list BlockData.t) (block_id : Z) :
  (get_block_name (BlockTypes.init types) block_id
   = inr (KeyError block_id) <->
   forall block, In block types -> BlockData.id block <> block_id) /\
  (forall before block after,
     types = (before ++ block :: after)%list ->
     BlockData.id block = block_id ->
     (forall later, In later after -> BlockData.id later <> block_id) ->
     get_block_name (BlockTypes.init types) block_id
     = inl (BlockData.name block)).
Proof.
  unfold get_block_name, BlockTypes.init. cbn [BlockTypes._blocks]. split.
  - rewrite <- (build_None Z.eq_dec BlockData.id (fun block => block)).
    destruct (Py.getitem Z.eq_dec block_id _); split; congruence.
  - intros before block after -> <- Hafter.
    now rewrite (build_last Z.eq_dec BlockData.id (fun block => block)).
Qed.

Lemma NoDup_map_eq {A B} (f : A -> B) (l : list A) a a' :
  NoDup (map f l) -> In a l -> In a' l -> f a = f a' -> a = a'.
Proof.
  induction l as [|x l IH]; simpl; [tauto|].
  intros Hnd Ha Ha' Heq. inversion Hnd as [|? ? Hx Hnd']; subst.
  destruct Ha as [->|Ha]; destruct Ha' as [->|Ha']; auto.
  - exfalso. apply Hx. rewrite Heq. now apply in_map.
  - exfalso. apply Hx. rewrite <- Heq. now apply in_map.
Qed.

(** Names and ids round trip when ids are not shared: if no two entries
    of the table have the same id, the id a name resolves to has, by
    [get_block_name], a name whose normalized form is that name. *)
Theorem resolved_id_names_back (types : list BlockData.t) (n : string)
    (v : Z) :
  NoDup (map BlockData.id types) ->
  BlockTypes.getattr (BlockTypes.init types) n = Ok v ->
  exists name,
    get_block_name (BlockTypes.init types) v = inl name /\
    Py.replace_hyphen (Py.upper name) = n.
Proof.
  intros Hnd Hget.
  unfold BlockTypes.getattr, BlockTypes.init in Hget.
  cbn [BlockTypes.attrs] in Hget.
  destruct (sget n _) as [v'|] eqn:Hn; [|discriminate].
  injection Hget as ->.
  apply (build_Some_In string_dec BlockTypes.attr_name BlockData.id) in Hn
    as (block & Hin & Hname & Hid).
  unfold get_block_name, BlockTypes.init. cbn [BlockTypes._blocks].
  destruct (Py.getitem Z.eq_dec v _) as [block'|] eqn:Hv.
  - apply (build_Some_In Z.eq_dec BlockData.id (fun b => b)) in Hv
      as (b' & Hin' & Hid' & ->).
    exists (BlockData.name block'). split; [reflexivity|].
    rewrite (NoDup_map_eq BlockData.id types block' block Hnd Hin' Hin)
      by congruence.
    exact Hname.
  - exfalso.
    exact (proj1 (build_None Z.eq_dec BlockData.id (fun b => b) v types)
             Hv block Hin Hid).
Qed.

Lemma resolved_id_names_back_witness :
  exists name,
    get_block_name (BlockTypes.init ex_types) 3 = inl name /\
    Py.replace_hyphen (Py.upper name) = "STONE_BRICKS".
Proof.
  apply (resolved_id_names_back ex_types "STONE_BRICKS" 3).
  - simpl. repeat constructor; simpl; intuition discriminate.
  - reflexivity.
Defined.

(** *** The listing of block types *)

Example print_block_types_example :
  print_block_types
    (BlockTypes.init
       [ BlockData.mk 12 "lava" "blocks/lava.png" true;
         BlockData.mk 3 "stone-bricks" "blocks/sb.png" false ]) =
  [ String "010" "Available Block Types:"; rule_line;
    "ID:  3 | Name: stone-bricks"; "     Texture: blocks/sb.png"; rule_line;
    "ID: 12 | Name: lava"; "     Texture: blocks/lava.png";
    "     Type: Liquid"; rule_line ].
Proof. reflexivity. Qed.

Section SortedItems.
Context {V : Type}.
Implicit Types (item : Z * V) (l : list (Z * V)).

Lemma In_insert_item item a l :
  In a (insert_item item l) <-> a = item \/ In a l.
Proof.
  induction l as [|h t IH]; simpl; [intuition|].
  destruct (Z.leb (fst item) (fst h)); simpl; [intuition|].
  rewrite IH. intuition.
Qed.

Lemma insert_item_sorted item l :
  ~ In (fst item) (map fst l) ->
  StronglySorted by_id l -> StronglySorted by_id (insert_item item l).
Proof.
  intros Hfresh Hsorted. induction Hsorted as [|h t Ht IH Hall]; simpl.
  - repeat constructor.
  - simpl in Hfresh. destruct (Z.leb_spec (fst item) (fst h)).
    + assert (Hlt : fst item < fst h) by (destruct (Z.eq_dec (fst h) (fst item)); [tauto|lia]).
      constructor; [now constructor|].
      constructor; [exact Hlt|].
      rewrite Forall_forall in *. intros a Ha. specialize (Hall a Ha).
      unfold by_id in *. lia.
    + constructor; [apply IH; tauto|].
      rewrite Forall_forall in *. intros a Ha.
      apply In_insert_item in Ha as [->|Ha]; [exact H|auto].
Qed.

Lemma sorted_items_spec (d : Py.dict Z V) :
  NoDup (map fst d) ->
  StronglySorted by_id (sorted_items d) /\
  forall a, In a (sorted_items d) <-> In a d.
Proof.
  unfold sorted_items. induction d as [|item d IH]; simpl; intros Hnd.
  - split; [constructor|tauto].
  - inversion Hnd as [|? ? Hfresh Hnd']; subst.
    destruct (IH Hnd') as [Hsorted Hin]. split.
    + apply insert_item_sorted; [|assumption].
      intros H. apply Hfresh. apply in_map_iff in H as (a & Ha & Hina).
      apply in_map_iff. exists a. split; [assumption|now apply Hin].
    + intros a. rewrite In_insert_item, Hin. intuition.
Qed.
End SortedItems.

Lemma NoDup_keys_blocks_index types :
  NoDup (Py.keys (BlockTypes._blocks (BlockTypes.init types))).
Proof.
  unfold BlockTypes.init. cbn [BlockTypes._blocks].
  assert (H : forall acc : Py.dict Z BlockData.t, NoDup (Py.keys acc) ->
            NoDup (Py.keys
                     (fold_left
                        (fun b block =>
                           Py.setitem Z.eq_dec (BlockData.id block) block b)
                        types acc))).
  { induction types as [|t types IH]; simpl; intros acc Hacc; [assumption|].
    apply IH. now apply NoDup_keys_setitem. }
  apply H. constructor.
Qed.

(** The listing is the two header lines followed by one group of lines
    per distinct id of the table, in strictly increasing order of id; the
    group of an id shows the last entry of the table with that id. *)
Theorem block_listing_ordered (types : list BlockData.t) :
  exists entries,
    print_block_types (BlockTypes.init types) =
      ([String "010" "Available Block Types:"; rule_line]
       ++ flat_map entry_lines entries)%list /\
    StronglySorted (fun a b => fst a < fst b) entries /\
    (forall block_id block,
       In (block_id, block) entries <->
       BlockData.id block = block_id /\
       exists before after,
         types = (before ++ block :: after)%list /\
         forall later, In later after -> BlockData.id later <> block_id).
Proof.
  exists (sorted_items (BlockTypes._blocks (BlockTypes.init types))).
  destruct (sorted_items_spec (BlockTypes._blocks (BlockTypes.init types))
              (NoDup_keys_blocks_index types)) as [Hsorted Hin].
  split; [reflexivity|]. split; [exact Hsorted|].
  intros block_id block. rewrite Hin. split.
  - intros Hitem.
    apply (In_getitem Z.eq_dec) in Hitem; [|apply NoDup_keys_blocks_index].
    unfold BlockTypes.init in Hitem. cbn [BlockTypes._blocks] in Hitem.
    pose proof Hitem as Hsome.
    apply (build_Some_In Z.eq_dec BlockData.id (fun b => b)) in Hsome
      as (b' & Hb' & Hid & ->).
    split; [exact Hid|].
    (* the last entry with this id *)
    clear Hb' Hsorted Hin. revert block Hid Hitem.
    induction types as [|t types IH] using rev_ind; intros block Hid Hitem;
      [discriminate|].
    rewrite fold_left_app in Hitem. simpl in Hitem.
    rewrite getitem_setitem in Hitem.
    destruct (Z.eq_dec block_id (BlockData.id t)) as [Heq|Hne].
    + injection Hitem as ->. exists types, []. split; [reflexivity|].
      intros later [].
    + destruct (IH block Hid Hitem) as (before & after & -> & Hafter).
      exists before, (after ++ [t])%list.
      split; [now rewrite <- List.app_assoc|].
      intros later Hl. apply in_app_iff in Hl as [Hl|[<-|[]]]; auto.
  - intros [Hid (before & after & -> & Hafter)].
    apply (getitem_In Z.eq_dec).
    unfold BlockTypes.init. cbn [BlockTypes._blocks]. rewrite <- Hid.
    apply (build_last Z.eq_dec BlockData.id (fun b => b)).
    intros a Ha. rewrite Hid. now apply Hafter.
Qed.

(** *** Parsing a key *)

Lemma split_comma_fields_plain s f :
  In f (Py.split_comma s) -> string_forall not_comma f = true.
Proof.
  revert f. induction s as [|c r IH]; simpl; intros f.
  - intros [<-|[]]. reflexivity.
  - destruct (Ascii.eqb c ",") eqn:Hc.
    + intros [<-|Hin]; [reflexivity|auto].
    + pose proof (split_comma_nonempty r) as Hne.
      destruct (Py.split_comma r) as [|f0 fs]; [congruence|].
      intros [<-|Hin].
      * simpl. unfold not_comma at 1. rewrite Hc. simpl.
        apply IH. now left.
      * apply IH. now right.
Qed.

(** The keys [from_string] accepts, as text: a key parses to a
    coordinate exactly when it is three comma-free pieces joined by two
    commas and [int] reads the pieces as the x, y and z of that
    coordinate.  Anything else (another number of commas, a piece that
    [int] refuses) does not parse. *)
Theorem from_string_accepts_iff (s : string) (c : Coordinates.t) :
  Coordinates.from_string s = Ok c <->
  exists a b d,
    s = a ++ "," ++ b ++ "," ++ d /\
    string_forall not_comma a = true /\
    string_forall not_comma b = true /\
    string_forall not_comma d = true /\
    Py.int a = Ok (Coordinates.x c) /\
    Py.int b = Ok (Coordinates.y c) /\
    Py.int d = Ok (Coordinates.z c).
Proof.
  split.
  - unfold Coordinates.from_string. intros Hparse.
    pose proof (join_split_comma s) as Hjoin.
    pose proof (split_comma_fields_plain s) as Hplain.
    destruct (Py.split_comma s) as [|a [|b [|d [|f4 rest]]]];
      simpl in Hparse; try discriminate;
      repeat match type of Hparse with
             | context [Py.int ?f] =>
                 destruct (Py.int f) eqn:?; simpl in Hparse;
                 try discriminate
             end.
    injection Hparse as <-. exists a, b, d. simpl in *.
    repeat split; try assumption; try (apply Hplain; auto).
    now symmetry.
  - intros (a & b & d & -> & Ha & Hb & Hd & Hia & Hib & Hid).
    unfold Coordinates.from_string. simpl.
    rewrite split_comma_field by assumption.
    rewrite split_comma_field by assumption.
    rewrite split_comma_plain by assumption.
    simpl. rewrite Hia, Hib, Hid. simpl. now destruct c.
Qed.

(** *** What is dropped *)

(** Blocks at or above the target height do not survive, except still
    water at the target height.  For an input block above the target
    height, whatever its type, the saved mapping holds the marker id under
    its key if that key is a marker key and has no entry under it
    otherwise.  For an input block at the target height that is not still
    water, the saved mapping holds grass under its key if the key is the
    canonical spelling of its coordinate and has no entry under it
    otherwise. *)
Theorem blocks_at_or_above_target_dropped (map_data out : MapData.t)
    (b : MapBounds.t) (g w s : Z) (k : string) (block_id : Z)
    (c : Coordinates.t) :
  NoDup (Py.keys (MapData.blocks map_data)) ->
  main map_data = Ok out ->
  get_map_bounds (MapData.blocks map_data) = Ok b ->
  BlockTypes.getattr (BlockTypes.init (MapData.blockTypes map_data))
    "GRASS" = Ok g ->
  BlockTypes.getattr (BlockTypes.init (MapData.blockTypes map_data))
    "WATER_STILL" = Ok w ->
  BlockTypes.getattr (BlockTypes.init (MapData.blockTypes map_data))
    "STONE_BRICKS" = Ok s ->
  sget k (MapData.blocks map_data) = Some block_id ->
  Coordinates.from_string k = Ok c ->
  (Coordinates.y c > TARGET_HEIGHT ->
   sget k (MapData.blocks out) =
   if string_dec k (marker_key (MapBounds.center b) 2) then Some s
   else if string_dec k (marker_key (MapBounds.center b) 1) then Some s
   else None) /\
  (Coordinates.y c = TARGET_HEIGHT -> block_id <> w ->
   sget k (MapData.blocks out) =
   if string_dec k (Coordinates.to_string c) then Some g else None).
Proof.
  intros Hnd Hmain Hb Hg Hw Hs Hk Hc.
  rewrite (main_blocks _ _ _ _ _ _ Hmain Hb Hg Hw Hs), getitem_flattened.
  rewrite getitem_retained, Hk by assumption.
  unfold keeps. cbn [fst snd]. rewrite Hc.
  apply get_map_bounds_spec in Hb.
  assert (Hsurf : In k (Py.keys (surface b g)) <-> 
                  Coordinates.y c = TARGET_HEIGHT /\
                  k = Coordinates.to_string c).
  { rewrite In_keys_surface. split.
    - intros (x & z & -> & _). rewrite surface_key_parse in Hc.
      injection Hc as <-. split; reflexivity.
    - intros [Hy ->]. exists (Coordinates.x c), (Coordinates.z c).
      destruct c as [cx cy cz]. simpl in *. subst cy.
      split; [reflexivity|].
      apply (bounds_cover _ _ Hb (Coordinates.mk cx TARGET_HEIGHT cz)).
      exists (Coordinates.to_string (Coordinates.mk cx TARGET_HEIGHT cz)).
      split; [|assumption]. eapply getitem_Some_key; eauto. }
  split.
  - intros Hy.
    destruct (string_dec _ _); [reflexivity|].
    destruct (string_dec _ _); [reflexivity|].
    replace (if Z.eqb block_id w
             then Z.leb (Coordinates.y c) TARGET_HEIGHT
             else Z.ltb (Coordinates.y c) TARGET_HEIGHT) with false
      by (destruct (Z.eqb block_id w); symmetry;
          [apply Z.leb_gt|apply Z.ltb_ge]; lia).
    apply (getitem_None string_dec). rewrite Hsurf. lia.
  - intros Hy Hnw.
    assert (Hmk : forall h, 1 <= h -> k <> marker_key (MapBounds.center b) h).
    { intros h Hh ->. rewrite marker_key_parse in Hc. injection Hc as <-.
      cbn [Coordinates.y] in Hy. unfold TARGET_HEIGHT in Hy. lia. }
    destruct (string_dec _ _) as [Heq|_]; [apply Hmk in Heq; [tauto|lia]|].
    destruct (string_dec _ _) as [Heq|_]; [apply Hmk in Heq; [tauto|lia]|].
    apply Z.eqb_neq in Hnw. rewrite Hnw.
    replace (Z.ltb (Coordinates.y c) TARGET_HEIGHT) with false
      by (symmetry; apply Z.ltb_ge; lia).
    rewrite getitem_surface.
    destruct (in_dec string_dec k (Py.keys (surface b g))) as [Hin|Hout];
      destruct (string_dec k (Coordinates.to_string c)) as [Heq|Hne];
      try reflexivity.
    + apply Hsurf in Hin. tauto.
    + exfalso. apply Hout, Hsurf. auto.
Qed.

Lemma blocks_at_or_above_target_dropped_witness :
  (0 > TARGET_HEIGHT ->
   sget "0,0,0" [("0,0,0", 1); ("0,1,0", 3); ("0,2,0", 3)] =
   if string_dec "0,0,0" (marker_key (0, 0) 2) then Some 3
   else if string_dec "0,0,0" (marker_key (0, 0) 1) then Some 3
   else None) /\
  (0 = TARGET_HEIGHT -> 4 <> 2 ->
   sget "0,0,0" [("0,0,0", 1); ("0,1,0", 3); ("0,2,0", 3)] =
   if string_dec "0,0,0"
        (Coordinates.to_string (Coordinates.mk 0 0 0))
   then Some 1 else None).
Proof.
  apply (blocks_at_or_above_target_dropped ex_lava
           (MapData.mk ex_types [("0,0,0", 1); ("0,1,0", 3); ("0,2,0", 3)])
           (MapBounds.mk 0 0 0 0) 1 2 3 "0,0,0" 4 (Coordinates.mk 0 0 0));
    try reflexivity.
  simpl. repeat constructor. simpl. tauto.
Defined.
